(** * Scanner position optimizer: [logic/optimizer_logic.py]

    A shallow embedding of the [OptimizerLogic] class of qudi: the scan-grid
    builder, the line-scan driver, the bounds validation applied to a fit
    result, and the signal-driven step sequencer.

    Conventions of the embedding.
    - Python floats are modelled as exact rationals ([Q]), and equality of
      computed coordinates is stated with [Qeq] ([==]).  The source computes
      in binary64: a statement that holds of the rationals by cancellation
      is not made of the program; where the rounding decides, the
      computation is embedded a second time over the primitive floats
      ([Binary64]).
    - numpy arrays are nested lists.  A count matrix returned by [scan_line]
      has one row per scanned sample and one column per counting channel.
    - A Python exception is the [None] outcome of the state-and-error monad
      [M]; it ends the modelled run.
    - Qt queued connections are a FIFO [queue] of pending private signals in
      the state; public signals are appended to the [emitted] log.
    - The scanning device, the fit service and the scipy convolutions are
      external: they are records of functions that the handlers take as
      parameters.  Logging, the settle-time sleep and the plots have no
      effect on the modelled state and are left out. *)

From Stdlib Require Import String QArith Qminmax Qabs Lqa ZArith Lia Bool List.
From Stdlib Require PrimFloat Uint63.
Import ListNotations.
Local Open Scope string_scope.
Local Open Scope list_scope.
Local Open Scope Q_scope.

(** ** Numbers *)

Definition Qltb (a b : Q) : bool := negb (Qle_bool b a).

Definition Qnat (n : nat) : Q := inject_Z (Z.of_nat n).

(** ** The fragment of numpy the optimizer uses *)

Module Np.

(** [np.clip(a, a_min, a_max)] is [minimum(a_max, maximum(a, a_min))]. *)
Definition clip (a a_min a_max : Q) : Q := Qmin (Qmax a a_min) a_max.

(** [np.linspace(start, stop, num)]: [arange(num) * step + start] with
    [step = (stop - start) / (num - 1)], the last sample overwritten by
    [stop] when [num > 1]; a single sample is [start].  The samples are
    exact here; [Binary64.linspace] is the same computation with the
    rounding of the source. *)
Definition linspace (start stop : Q) (num : nat) : list Q :=
  let div := (num - 1)%nat in
  let delta := stop - start in
  map (fun i =>
         if (1 <? num)%nat && (i =? div)%nat then stop
         else if (0 <? div)%nat then Qnat i * (delta / Qnat div) + start
         else Qnat i * delta + start)
      (seq 0 num).

Definition zeros (n : nat) : list Q := repeat 0 n.

(** [c * np.ones(n)] *)
Definition full (n : nat) (c : Q) : list Q := repeat c n.

(** [np.any(counts == v)] on a two-dimensional array. *)
Definition any_eq (v : Q) (counts : list (list Q)) : bool :=
  existsb (existsb (fun c => Qeq_bool c v)) counts.

(** [a.max()] and [a.min()]; both raise on an empty array. *)
Definition max (l : list Q) : option Q :=
  match l with
  | [] => None
  | x :: t => Some (fold_left Qmax t x)
  end.

Definition min (l : list Q) : option Q :=
  match l with
  | [] => None
  | x :: t => Some (fold_left Qmin t x)
  end.

Definition sum (l : list Q) : Q := fold_left Qplus l 0.

Definition mean (l : list Q) : Q := sum l / Qnat (length l).

(** [a - b] on two-dimensional arrays of one shape; other shapes raise
    (numpy's broadcasting of unequal shapes is not modelled). *)
Definition same_shape (a b : list (list Q)) : bool :=
  (length a =? length b)%nat
  && forallb (fun p => (length (fst p) =? length (snd p))%nat) (combine a b).

Definition sub2 (a b : list (list Q)) : option (list (list Q)) :=
  if same_shape a b
  then Some (map (fun p => map (fun q => fst q - snd q) (combine (fst p) (snd p)))
                 (combine a b))
  else None.

(** [a[:, j]]: column [j] of a two-dimensional array. *)
Fixpoint column (j : nat) (a : list (list Q)) : option (list Q) :=
  match a with
  | [] => Some []
  | r :: t =>
      match nth_error r j, column j t with
      | Some x, Some c => Some (x :: c)
      | _, _ => None
      end
  end.

End Np.

(** ** External collaborators *)

(** A coordinate matrix handed to the device: one row per axis. *)
Definition Line := list (list Q).

(** Counts returned by the device: one row per sample, one column per
    counting channel. *)
Definition Counts := list (list Q).

(** The scan image: rows (Y) of cells (X), a cell being
    [x; y; z; counts of channel 0; counts of channel 1; ...]. *)
Definition Image := list (list (list Q)).

(** The scanning device.  [scan_line] and [get_scanner_position] may answer
    differently from call to call: they are indexed by the number of line
    scans performed before; [close_scanner] and [close_scanner_clock] by the
    number of earlier calls of themselves, [None] meaning that the call
    raises. *)
Record ConfocalScanner : Type := {
  get_scanner_axes : nat;
  get_scanner_count_channels : nat;
  get_scanner_position : nat -> list Q;
  set_up_scanner_clock : Z;
  set_up_scanner : Z;
  scan_line : nat -> Line -> Counts;
  close_scanner : nat -> option Z;
  close_scanner_clock : nat -> option Z
}.

(** What a fit reports: the success flag and the entries of [best_values]
    that the optimizer reads. *)
Module Fit2D.
Record result : Type := {
  success : bool;
  center_x : Q;
  center_y : Q;
  sigma_x : Q;
  sigma_y : Q
}.
End Fit2D.

Module Fit1D.
Record result : Type := {
  success : bool;
  center : Q;
  sigma : Q
}.
End Fit1D.

(** The fit service.  The two-dimensional fit receives the flattened X and Y
    axes and the data; the peak fit also receives the adjusted bounds of the
    offset parameter [(value, min, max)] when there are any. *)
Record FitLogic : Type := {
  make_twoDgaussian_fit : list Q -> list Q -> list Q -> Fit2D.result;
  make_gaussianlinearoffset_fit : list Q -> list Q -> Fit1D.result;
  make_gausspeaklinearoffset_fit :
    list Q -> list Q -> option (Q * Q * Q) -> Fit1D.result
}.

(** The scipy convolutions of the template fits.  [convolve2d_argmax template
    data fillvalue] is the pair of the index of the maximum of
    [sig.convolve2d(template, data, mode='full', fillvalue)] and of the shape
    of that convolution; [ndi_convolve input weights cval] is
    [ndi.convolve(input, weights, mode='constant', cval)]. *)
Record Scipy : Type := {
  convolve2d_argmax :
    list (list Q) -> list (list Q) -> Q -> (nat * nat) * (nat * nat);
  ndi_convolve : list Q -> list Q -> Q -> list Q
}.

(** ** Signals *)

(** The private signals, all connected through queued connections except
    [_sigFinishedAllOptimizationSteps], whose slot is called directly. *)
Inductive Signal : Type :=
| _sigScanNextXyLine
| _sigScanZLine
| _sigCompletedXyOptimizerScan
| _sigDoNextOptimizationStep.

(** The public signals the model records. *)
Inductive Event : Type :=
| sigImageUpdated
| sigRefocusStarted (tag : string)
| sigRefocusFinished (caller_tag : string) (position : list Q).

(** The estimators that can be invoked on acquired data. *)
Inductive FitCall : Type :=
| TwoDGaussianFit
| XyTemplateFit
| ZTemplateFit
| GaussianLinearOffsetFit
| GaussPeakLinearOffsetFit.

(** ** The optimizer's state *)

(** Configuration that the modelled methods only read. *)
Record Settings : Type := {
  return_slowness : nat;
  refocus_XY_size : Q;
  optimizer_XY_res : nat;
  refocus_Z_size : Q;
  optimizer_Z_res : nat;
  do_surface_subtraction : bool;
  surface_subtr_scan_offset : Q;
  opt_channel : nat;
  fit_type : string;
  template_cursor : list Q;
  use_custom_params : bool;   (* any(self.use_custom_params.values()) *)
  _max_offset : Q;
  x_range : Q * Q;
  y_range : Q * Q;
  z_range : Q * Q
}.

(** The fields of the [OptimizerLogic] instance that the modelled methods use,
    followed by the event queue and the record of what was done to the
    outside world.  The display-only [z_fit_data] and [z_params] are left out. *)
Record State : Type := mkState {
  cfg : Settings;
  optimization_sequence : list string;
  stopRequested : bool;
  _caller_tag : string;
  _initial_pos_x : Q;
  _initial_pos_y : Q;
  _initial_pos_z : Q;
  optim_pos_x : Q;
  optim_pos_y : Q;
  optim_pos_z : Q;
  optim_sigma_x : Q;
  optim_sigma_y : Q;
  optim_sigma_z : Q;
  _xy_scan_line_count : nat;
  _optimization_step : nat;
  _X_values : list Q;
  _Y_values : list Q;
  _return_X_values : list Q;
  xy_refocus_image : Image;
  xy_template_image : Image;
  _zimage_Z_values : list Q;
  z_refocus_line : Counts;
  z_template_data : Counts;
  zimage_template_Z_values : list Q;
  queue : list Signal;  (* pending queued signals, oldest first *)
  emitted : list Event;  (* public signals emitted so far *)
  scan_log : list Line;  (* coordinate matrices passed to scan_line so far *)
  fit_log : list FitCall;  (* estimators invoked so far *)
  closed_scanner : nat;  (* calls of close_scanner so far *)
  closed_clock : nat;  (* calls of close_scanner_clock so far *)
  locked : bool  (* module_state is 'locked' *)
}.

(** Field updates. *)
Definition set_optimization_sequence (v : list string) (s : State) : State :=
  mkState (cfg s) v (stopRequested s) (_caller_tag s) (_initial_pos_x s)
    (_initial_pos_y s) (_initial_pos_z s) (optim_pos_x s) (optim_pos_y s)
    (optim_pos_z s) (optim_sigma_x s) (optim_sigma_y s) (optim_sigma_z s)
    (_xy_scan_line_count s) (_optimization_step s) (_X_values s) (_Y_values s)
    (_return_X_values s) (xy_refocus_image s) (xy_template_image s)
    (_zimage_Z_values s) (z_refocus_line s) (z_template_data s)
    (zimage_template_Z_values s) (queue s) (emitted s) (scan_log s) (fit_log
    s) (closed_scanner s) (closed_clock s) (locked s).
Definition set_stopRequested (v : bool) (s : State) : State :=
  mkState (cfg s) (optimization_sequence s) v (_caller_tag s) (_initial_pos_x
    s) (_initial_pos_y s) (_initial_pos_z s) (optim_pos_x s) (optim_pos_y s)
    (optim_pos_z s) (optim_sigma_x s) (optim_sigma_y s) (optim_sigma_z s)
    (_xy_scan_line_count s) (_optimization_step s) (_X_values s) (_Y_values s)
    (_return_X_values s) (xy_refocus_image s) (xy_template_image s)
    (_zimage_Z_values s) (z_refocus_line s) (z_template_data s)
    (zimage_template_Z_values s) (queue s) (emitted s) (scan_log s) (fit_log
    s) (closed_scanner s) (closed_clock s) (locked s).
Definition set_caller_tag (v : string) (s : State) : State :=
  mkState (cfg s) (optimization_sequence s) (stopRequested s) v
    (_initial_pos_x s) (_initial_pos_y s) (_initial_pos_z s) (optim_pos_x s)
    (optim_pos_y s) (optim_pos_z s) (optim_sigma_x s) (optim_sigma_y s)
    (optim_sigma_z s) (_xy_scan_line_count s) (_optimization_step s)
    (_X_values s) (_Y_values s) (_return_X_values s) (xy_refocus_image s)
    (xy_template_image s) (_zimage_Z_values s) (z_refocus_line s)
    (z_template_data s) (zimage_template_Z_values s) (queue s) (emitted s)
    (scan_log s) (fit_log s) (closed_scanner s) (closed_clock s) (locked s).
Definition set_initial_pos_x (v : Q) (s : State) : State :=
  mkState (cfg s) (optimization_sequence s) (stopRequested s) (_caller_tag s)
    v (_initial_pos_y s) (_initial_pos_z s) (optim_pos_x s) (optim_pos_y s)
    (optim_pos_z s) (optim_sigma_x s) (optim_sigma_y s) (optim_sigma_z s)
    (_xy_scan_line_count s) (_optimization_step s) (_X_values s) (_Y_values s)
    (_return_X_values s) (xy_refocus_image s) (xy_template_image s)
    (_zimage_Z_values s) (z_refocus_line s) (z_template_data s)
    (zimage_template_Z_values s) (queue s) (emitted s) (scan_log s) (fit_log
    s) (closed_scanner s) (closed_clock s) (locked s).
Definition set_initial_pos_y (v : Q) (s : State) : State :=
  mkState (cfg s) (optimization_sequence s) (stopRequested s) (_caller_tag s)
    (_initial_pos_x s) v (_initial_pos_z s) (optim_pos_x s) (optim_pos_y s)
    (optim_pos_z s) (optim_sigma_x s) (optim_sigma_y s) (optim_sigma_z s)
    (_xy_scan_line_count s) (_optimization_step s) (_X_values s) (_Y_values s)
    (_return_X_values s) (xy_refocus_image s) (xy_template_image s)
    (_zimage_Z_values s) (z_refocus_line s) (z_template_data s)
    (zimage_template_Z_values s) (queue s) (emitted s) (scan_log s) (fit_log
    s) (closed_scanner s) (closed_clock s) (locked s).
Definition set_initial_pos_z (v : Q) (s : State) : State :=
  mkState (cfg s) (optimization_sequence s) (stopRequested s) (_caller_tag s)
    (_initial_pos_x s) (_initial_pos_y s) v (optim_pos_x s) (optim_pos_y s)
    (optim_pos_z s) (optim_sigma_x s) (optim_sigma_y s) (optim_sigma_z s)
    (_xy_scan_line_count s) (_optimization_step s) (_X_values s) (_Y_values s)
    (_return_X_values s) (xy_refocus_image s) (xy_template_image s)
    (_zimage_Z_values s) (z_refocus_line s) (z_template_data s)
    (zimage_template_Z_values s) (queue s) (emitted s) (scan_log s) (fit_log
    s) (closed_scanner s) (closed_clock s) (locked s).
Definition set_optim_pos_x (v : Q) (s : State) : State :=
  mkState (cfg s) (optimization_sequence s) (stopRequested s) (_caller_tag s)
    (_initial_pos_x s) (_initial_pos_y s) (_initial_pos_z s) v (optim_pos_y s)
    (optim_pos_z s) (optim_sigma_x s) (optim_sigma_y s) (optim_sigma_z s)
    (_xy_scan_line_count s) (_optimization_step s) (_X_values s) (_Y_values s)
    (_return_X_values s) (xy_refocus_image s) (xy_template_image s)
    (_zimage_Z_values s) (z_refocus_line s) (z_template_data s)
    (zimage_template_Z_values s) (queue s) (emitted s) (scan_log s) (fit_log
    s) (closed_scanner s) (closed_clock s) (locked s).
Definition set_optim_pos_y (v : Q) (s : State) : State :=
  mkState (cfg s) (optimization_sequence s) (stopRequested s) (_caller_tag s)
    (_initial_pos_x s) (_initial_pos_y s) (_initial_pos_z s) (optim_pos_x s) v
    (optim_pos_z s) (optim_sigma_x s) (optim_sigma_y s) (optim_sigma_z s)
    (_xy_scan_line_count s) (_optimization_step s) (_X_values s) (_Y_values s)
    (_return_X_values s) (xy_refocus_image s) (xy_template_image s)
    (_zimage_Z_values s) (z_refocus_line s) (z_template_data s)
    (zimage_template_Z_values s) (queue s) (emitted s) (scan_log s) (fit_log
    s) (closed_scanner s) (closed_clock s) (locked s).
Definition set_optim_pos_z (v : Q) (s : State) : State :=
  mkState (cfg s) (optimization_sequence s) (stopRequested s) (_caller_tag s)
    (_initial_pos_x s) (_initial_pos_y s) (_initial_pos_z s) (optim_pos_x s)
    (optim_pos_y s) v (optim_sigma_x s) (optim_sigma_y s) (optim_sigma_z s)
    (_xy_scan_line_count s) (_optimization_step s) (_X_values s) (_Y_values s)
    (_return_X_values s) (xy_refocus_image s) (xy_template_image s)
    (_zimage_Z_values s) (z_refocus_line s) (z_template_data s)
    (zimage_template_Z_values s) (queue s) (emitted s) (scan_log s) (fit_log
    s) (closed_scanner s) (closed_clock s) (locked s).
Definition set_optim_sigma_x (v : Q) (s : State) : State :=
  mkState (cfg s) (optimization_sequence s) (stopRequested s) (_caller_tag s)
    (_initial_pos_x s) (_initial_pos_y s) (_initial_pos_z s) (optim_pos_x s)
    (optim_pos_y s) (optim_pos_z s) v (optim_sigma_y s) (optim_sigma_z s)
    (_xy_scan_line_count s) (_optimization_step s) (_X_values s) (_Y_values s)
    (_return_X_values s) (xy_refocus_image s) (xy_template_image s)
    (_zimage_Z_values s) (z_refocus_line s) (z_template_data s)
    (zimage_template_Z_values s) (queue s) (emitted s) (scan_log s) (fit_log
    s) (closed_scanner s) (closed_clock s) (locked s).
Definition set_optim_sigma_y (v : Q) (s : State) : State :=
  mkState (cfg s) (optimization_sequence s) (stopRequested s) (_caller_tag s)
    (_initial_pos_x s) (_initial_pos_y s) (_initial_pos_z s) (optim_pos_x s)
    (optim_pos_y s) (optim_pos_z s) (optim_sigma_x s) v (optim_sigma_z s)
    (_xy_scan_line_count s) (_optimization_step s) (_X_values s) (_Y_values s)
    (_return_X_values s) (xy_refocus_image s) (xy_template_image s)
    (_zimage_Z_values s) (z_refocus_line s) (z_template_data s)
    (zimage_template_Z_values s) (queue s) (emitted s) (scan_log s) (fit_log
    s) (closed_scanner s) (closed_clock s) (locked s).
Definition set_optim_sigma_z (v : Q) (s : State) : State :=
  mkState (cfg s) (optimization_sequence s) (stopRequested s) (_caller_tag s)
    (_initial_pos_x s) (_initial_pos_y s) (_initial_pos_z s) (optim_pos_x s)
    (optim_pos_y s) (optim_pos_z s) (optim_sigma_x s) (optim_sigma_y s) v
    (_xy_scan_line_count s) (_optimization_step s) (_X_values s) (_Y_values s)
    (_return_X_values s) (xy_refocus_image s) (xy_template_image s)
    (_zimage_Z_values s) (z_refocus_line s) (z_template_data s)
    (zimage_template_Z_values s) (queue s) (emitted s) (scan_log s) (fit_log
    s) (closed_scanner s) (closed_clock s) (locked s).
Definition set_xy_scan_line_count (v : nat) (s : State) : State :=
  mkState (cfg s) (optimization_sequence s) (stopRequested s) (_caller_tag s)
    (_initial_pos_x s) (_initial_pos_y s) (_initial_pos_z s) (optim_pos_x s)
    (optim_pos_y s) (optim_pos_z s) (optim_sigma_x s) (optim_sigma_y s)
    (optim_sigma_z s) v (_optimization_step s) (_X_values s) (_Y_values s)
    (_return_X_values s) (xy_refocus_image s) (xy_template_image s)
    (_zimage_Z_values s) (z_refocus_line s) (z_template_data s)
    (zimage_template_Z_values s) (queue s) (emitted s) (scan_log s) (fit_log
    s) (closed_scanner s) (closed_clock s) (locked s).
Definition set_optimization_step (v : nat) (s : State) : State :=
  mkState (cfg s) (optimization_sequence s) (stopRequested s) (_caller_tag s)
    (_initial_pos_x s) (_initial_pos_y s) (_initial_pos_z s) (optim_pos_x s)
    (optim_pos_y s) (optim_pos_z s) (optim_sigma_x s) (optim_sigma_y s)
    (optim_sigma_z s) (_xy_scan_line_count s) v (_X_values s) (_Y_values s)
    (_return_X_values s) (xy_refocus_image s) (xy_template_image s)
    (_zimage_Z_values s) (z_refocus_line s) (z_template_data s)
    (zimage_template_Z_values s) (queue s) (emitted s) (scan_log s) (fit_log
    s) (closed_scanner s) (closed_clock s) (locked s).
Definition set_X_values (v : list Q) (s : State) : State :=
  mkState (cfg s) (optimization_sequence s) (stopRequested s) (_caller_tag s)
    (_initial_pos_x s) (_initial_pos_y s) (_initial_pos_z s) (optim_pos_x s)
    (optim_pos_y s) (optim_pos_z s) (optim_sigma_x s) (optim_sigma_y s)
    (optim_sigma_z s) (_xy_scan_line_count s) (_optimization_step s) v
    (_Y_values s) (_return_X_values s) (xy_refocus_image s) (xy_template_image
    s) (_zimage_Z_values s) (z_refocus_line s) (z_template_data s)
    (zimage_template_Z_values s) (queue s) (emitted s) (scan_log s) (fit_log
    s) (closed_scanner s) (closed_clock s) (locked s).
Definition set_Y_values (v : list Q) (s : State) : State :=
  mkState (cfg s) (optimization_sequence s) (stopRequested s) (_caller_tag s)
    (_initial_pos_x s) (_initial_pos_y s) (_initial_pos_z s) (optim_pos_x s)
    (optim_pos_y s) (optim_pos_z s) (optim_sigma_x s) (optim_sigma_y s)
    (optim_sigma_z s) (_xy_scan_line_count s) (_optimization_step s)
    (_X_values s) v (_return_X_values s) (xy_refocus_image s)
    (xy_template_image s) (_zimage_Z_values s) (z_refocus_line s)
    (z_template_data s) (zimage_template_Z_values s) (queue s) (emitted s)
    (scan_log s) (fit_log s) (closed_scanner s) (closed_clock s) (locked s).
Definition set_return_X_values (v : list Q) (s : State) : State :=
  mkState (cfg s) (optimization_sequence s) (stopRequested s) (_caller_tag s)
    (_initial_pos_x s) (_initial_pos_y s) (_initial_pos_z s) (optim_pos_x s)
    (optim_pos_y s) (optim_pos_z s) (optim_sigma_x s) (optim_sigma_y s)
    (optim_sigma_z s) (_xy_scan_line_count s) (_optimization_step s)
    (_X_values s) (_Y_values s) v (xy_refocus_image s) (xy_template_image s)
    (_zimage_Z_values s) (z_refocus_line s) (z_template_data s)
    (zimage_template_Z_values s) (queue s) (emitted s) (scan_log s) (fit_log
    s) (closed_scanner s) (closed_clock s) (locked s).
Definition set_xy_refocus_image (v : Image) (s : State) : State :=
  mkState (cfg s) (optimization_sequence s) (stopRequested s) (_caller_tag s)
    (_initial_pos_x s) (_initial_pos_y s) (_initial_pos_z s) (optim_pos_x s)
    (optim_pos_y s) (optim_pos_z s) (optim_sigma_x s) (optim_sigma_y s)
    (optim_sigma_z s) (_xy_scan_line_count s) (_optimization_step s)
    (_X_values s) (_Y_values s) (_return_X_values s) v (xy_template_image s)
    (_zimage_Z_values s) (z_refocus_line s) (z_template_data s)
    (zimage_template_Z_values s) (queue s) (emitted s) (scan_log s) (fit_log
    s) (closed_scanner s) (closed_clock s) (locked s).
Definition set_xy_template_image (v : Image) (s : State) : State :=
  mkState (cfg s) (optimization_sequence s) (stopRequested s) (_caller_tag s)
    (_initial_pos_x s) (_initial_pos_y s) (_initial_pos_z s) (optim_pos_x s)
    (optim_pos_y s) (optim_pos_z s) (optim_sigma_x s) (optim_sigma_y s)
    (optim_sigma_z s) (_xy_scan_line_count s) (_optimization_step s)
    (_X_values s) (_Y_values s) (_return_X_values s) (xy_refocus_image s) v
    (_zimage_Z_values s) (z_refocus_line s) (z_template_data s)
    (zimage_template_Z_values s) (queue s) (emitted s) (scan_log s) (fit_log
    s) (closed_scanner s) (closed_clock s) (locked s).
Definition set_zimage_Z_values (v : list Q) (s : State) : State :=
  mkState (cfg s) (optimization_sequence s) (stopRequested s) (_caller_tag s)
    (_initial_pos_x s) (_initial_pos_y s) (_initial_pos_z s) (optim_pos_x s)
    (optim_pos_y s) (optim_pos_z s) (optim_sigma_x s) (optim_sigma_y s)
    (optim_sigma_z s) (_xy_scan_line_count s) (_optimization_step s)
    (_X_values s) (_Y_values s) (_return_X_values s) (xy_refocus_image s)
    (xy_template_image s) v (z_refocus_line s) (z_template_data s)
    (zimage_template_Z_values s) (queue s) (emitted s) (scan_log s) (fit_log
    s) (closed_scanner s) (closed_clock s) (locked s).
Definition set_z_refocus_line (v : Counts) (s : State) : State :=
  mkState (cfg s) (optimization_sequence s) (stopRequested s) (_caller_tag s)
    (_initial_pos_x s) (_initial_pos_y s) (_initial_pos_z s) (optim_pos_x s)
    (optim_pos_y s) (optim_pos_z s) (optim_sigma_x s) (optim_sigma_y s)
    (optim_sigma_z s) (_xy_scan_line_count s) (_optimization_step s)
    (_X_values s) (_Y_values s) (_return_X_values s) (xy_refocus_image s)
    (xy_template_image s) (_zimage_Z_values s) v (z_template_data s)
    (zimage_template_Z_values s) (queue s) (emitted s) (scan_log s) (fit_log
    s) (closed_scanner s) (closed_clock s) (locked s).
Definition set_z_template_data (v : Counts) (s : State) : State :=
  mkState (cfg s) (optimization_sequence s) (stopRequested s) (_caller_tag s)
    (_initial_pos_x s) (_initial_pos_y s) (_initial_pos_z s) (optim_pos_x s)
    (optim_pos_y s) (optim_pos_z s) (optim_sigma_x s) (optim_sigma_y s)
    (optim_sigma_z s) (_xy_scan_line_count s) (_optimization_step s)
    (_X_values s) (_Y_values s) (_return_X_values s) (xy_refocus_image s)
    (xy_template_image s) (_zimage_Z_values s) (z_refocus_line s) v
    (zimage_template_Z_values s) (queue s) (emitted s) (scan_log s) (fit_log
    s) (closed_scanner s) (closed_clock s) (locked s).
Definition set_zimage_template_Z_values (v : list Q) (s : State) : State :=
  mkState (cfg s) (optimization_sequence s) (stopRequested s) (_caller_tag s)
    (_initial_pos_x s) (_initial_pos_y s) (_initial_pos_z s) (optim_pos_x s)
    (optim_pos_y s) (optim_pos_z s) (optim_sigma_x s) (optim_sigma_y s)
    (optim_sigma_z s) (_xy_scan_line_count s) (_optimization_step s)
    (_X_values s) (_Y_values s) (_return_X_values s) (xy_refocus_image s)
    (xy_template_image s) (_zimage_Z_values s) (z_refocus_line s)
    (z_template_data s) v (queue s) (emitted s) (scan_log s) (fit_log s)
    (closed_scanner s) (closed_clock s) (locked s).
Definition set_queue (v : list Signal) (s : State) : State :=
  mkState (cfg s) (optimization_sequence s) (stopRequested s) (_caller_tag s)
    (_initial_pos_x s) (_initial_pos_y s) (_initial_pos_z s) (optim_pos_x s)
    (optim_pos_y s) (optim_pos_z s) (optim_sigma_x s) (optim_sigma_y s)
    (optim_sigma_z s) (_xy_scan_line_count s) (_optimization_step s)
    (_X_values s) (_Y_values s) (_return_X_values s) (xy_refocus_image s)
    (xy_template_image s) (_zimage_Z_values s) (z_refocus_line s)
    (z_template_data s) (zimage_template_Z_values s) v (emitted s) (scan_log
    s) (fit_log s) (closed_scanner s) (closed_clock s) (locked s).
Definition set_emitted (v : list Event) (s : State) : State :=
  mkState (cfg s) (optimization_sequence s) (stopRequested s) (_caller_tag s)
    (_initial_pos_x s) (_initial_pos_y s) (_initial_pos_z s) (optim_pos_x s)
    (optim_pos_y s) (optim_pos_z s) (optim_sigma_x s) (optim_sigma_y s)
    (optim_sigma_z s) (_xy_scan_line_count s) (_optimization_step s)
    (_X_values s) (_Y_values s) (_return_X_values s) (xy_refocus_image s)
    (xy_template_image s) (_zimage_Z_values s) (z_refocus_line s)
    (z_template_data s) (zimage_template_Z_values s) (queue s) v (scan_log s)
    (fit_log s) (closed_scanner s) (closed_clock s) (locked s).
Definition set_scan_log (v : list Line) (s : State) : State :=
  mkState (cfg s) (optimization_sequence s) (stopRequested s) (_caller_tag s)
    (_initial_pos_x s) (_initial_pos_y s) (_initial_pos_z s) (optim_pos_x s)
    (optim_pos_y s) (optim_pos_z s) (optim_sigma_x s) (optim_sigma_y s)
    (optim_sigma_z s) (_xy_scan_line_count s) (_optimization_step s)
    (_X_values s) (_Y_values s) (_return_X_values s) (xy_refocus_image s)
    (xy_template_image s) (_zimage_Z_values s) (z_refocus_line s)
    (z_template_data s) (zimage_template_Z_values s) (queue s) (emitted s) v
    (fit_log s) (closed_scanner s) (closed_clock s) (locked s).
Definition set_fit_log (v : list FitCall) (s : State) : State :=
  mkState (cfg s) (optimization_sequence s) (stopRequested s) (_caller_tag s)
    (_initial_pos_x s) (_initial_pos_y s) (_initial_pos_z s) (optim_pos_x s)
    (optim_pos_y s) (optim_pos_z s) (optim_sigma_x s) (optim_sigma_y s)
    (optim_sigma_z s) (_xy_scan_line_count s) (_optimization_step s)
    (_X_values s) (_Y_values s) (_return_X_values s) (xy_refocus_image s)
    (xy_template_image s) (_zimage_Z_values s) (z_refocus_line s)
    (z_template_data s) (zimage_template_Z_values s) (queue s) (emitted s)
    (scan_log s) v (closed_scanner s) (closed_clock s) (locked s).
Definition set_closed_scanner (v : nat) (s : State) : State :=
  mkState (cfg s) (optimization_sequence s) (stopRequested s) (_caller_tag s)
    (_initial_pos_x s) (_initial_pos_y s) (_initial_pos_z s) (optim_pos_x s)
    (optim_pos_y s) (optim_pos_z s) (optim_sigma_x s) (optim_sigma_y s)
    (optim_sigma_z s) (_xy_scan_line_count s) (_optimization_step s)
    (_X_values s) (_Y_values s) (_return_X_values s) (xy_refocus_image s)
    (xy_template_image s) (_zimage_Z_values s) (z_refocus_line s)
    (z_template_data s) (zimage_template_Z_values s) (queue s) (emitted s)
    (scan_log s) (fit_log s) v (closed_clock s) (locked s).
Definition set_closed_clock (v : nat) (s : State) : State :=
  mkState (cfg s) (optimization_sequence s) (stopRequested s) (_caller_tag s)
    (_initial_pos_x s) (_initial_pos_y s) (_initial_pos_z s) (optim_pos_x s)
    (optim_pos_y s) (optim_pos_z s) (optim_sigma_x s) (optim_sigma_y s)
    (optim_sigma_z s) (_xy_scan_line_count s) (_optimization_step s)
    (_X_values s) (_Y_values s) (_return_X_values s) (xy_refocus_image s)
    (xy_template_image s) (_zimage_Z_values s) (z_refocus_line s)
    (z_template_data s) (zimage_template_Z_values s) (queue s) (emitted s)
    (scan_log s) (fit_log s) (closed_scanner s) v (locked s).
Definition set_locked (v : bool) (s : State) : State :=
  mkState (cfg s) (optimization_sequence s) (stopRequested s) (_caller_tag s)
    (_initial_pos_x s) (_initial_pos_y s) (_initial_pos_z s) (optim_pos_x s)
    (optim_pos_y s) (optim_pos_z s) (optim_sigma_x s) (optim_sigma_y s)
    (optim_sigma_z s) (_xy_scan_line_count s) (_optimization_step s)
    (_X_values s) (_Y_values s) (_return_X_values s) (xy_refocus_image s)
    (xy_template_image s) (_zimage_Z_values s) (z_refocus_line s)
    (z_template_data s) (zimage_template_Z_values s) (queue s) (emitted s)
    (scan_log s) (fit_log s) (closed_scanner s) (closed_clock s) v.

(** ** The state-and-error monad *)

Definition M (A : Type) : Type := State -> option (A * State).

Definition ret {A : Type} (a : A) : M A := fun s => Some (a, s).

Definition bind {A B : Type} (m : M A) (k : A -> M B) : M B :=
  fun s => match m s with
           | Some (a, s') => k a s'
           | None => None
           end.

(** A read of the instance. *)
Definition get {A : Type} (f : State -> A) : M A := fun s => Some (f s, s).

(** An assignment to the instance. *)
Definition put (f : State -> State) : M unit := fun s => Some (tt, f s).

(** An indexing or a library call that raises when it has no value. *)
Definition try_ {A : Type} (o : option A) : M A :=
  fun s => match o with
           | Some a => Some (a, s)
           | None => None
           end.

Notation "x <- m ;; k" := (bind m (fun x => k))
  (at level 61, m at next level, right associativity).
Notation "m ;; k" := (bind m (fun _ => k))
  (at level 61, right associativity).

(** [signal.emit()] on a queued connection. *)
Definition emit (sig : Signal) : M unit :=
  put (fun s => set_queue (queue s ++ [sig]) s).

(** [signal.emit(...)] of a public signal. *)
Definition publish (ev : Event) : M unit :=
  put (fun s => set_emitted (emitted s ++ [ev]) s).

Definition called (f : FitCall) : M unit :=
  put (fun s => set_fit_log (fit_log s ++ [f]) s).

(** ** Array helpers *)

(** [np.vstack(rows)] raises on an empty sequence.  The rows the optimizer
    stacks always have one length. *)
Definition vstack (rows : list (list Q)) : option Line :=
  match rows with
  | [] => None
  | _ => Some rows
  end.

Fixpoint update_nth {A : Type} (k : nat) (v : A) (l : list A) : list A :=
  match l, k with
  | [], _ => []
  | _ :: t, O => v :: t
  | x :: t, S k' => x :: update_nth k' v t
  end.

(** [row[:, 3:3+s_ch] = counts] on one image row.  The shapes have to agree
    exactly (numpy's broadcasting of other shapes is not modelled). *)
Definition set_row_counts (s_ch : nat) (counts : Counts) (row : list (list Q))
  : option (list (list Q)) :=
  if (length counts =? length row)%nat
     && forallb (fun c => (length c =? s_ch)%nat) counts
     && forallb (fun cell => (3 + s_ch <=? length cell)%nat) row
  then Some (map (fun p => firstn 3 (fst p) ++ snd p ++ skipn (3 + s_ch) (fst p))
                 (combine row counts))
  else None.

(** [image[k, :, 3:3+s_ch] = counts] *)
Definition assign_line (s_ch k : nat) (counts : Counts) (img : Image)
  : option Image :=
  match nth_error img k with
  | None => None
  | Some row =>
      match set_row_counts s_ch counts row with
      | None => None
      | Some row' => Some (update_nth k row' img)
      end
  end.

(** [image[:, :, j]] *)
Fixpoint image_channel (j : nat) (img : Image) : option (list (list Q)) :=
  match img with
  | [] => Some []
  | row :: t =>
      match Np.column j row, image_channel j t with
      | Some r, Some c => Some (r :: c)
      | _, _ => None
      end
  end.

(** The image that [_initialize_xy_refocus_image] allocates: the X, Y and Z
    planes filled in, the counts zero. *)
Definition blank_image (X Y : list Q) (z0 : Q) (s_ch : nat) : Image :=
  map (fun y => map (fun x => [x; y; z0] ++ Np.zeros s_ch) X) Y.

Definition in_xy_template (ft : string) : bool :=
  (ft =? "xy_template")%string || (ft =? "all_template")%string.

Definition in_z_template (ft : string) : bool :=
  (ft =? "z_template")%string || (ft =? "all_template")%string.

(** ** The way of a position through a run

    [start_refocus] subtracts the cursor of a template fit from the position
    it is asked to start from, and [finish_refocus] adds it to the estimate
    it reports.  The two steps are written once for any arithmetic, to be
    read over the rationals and over binary64. *)




(** ** The arithmetic of the source

    The rationals of the embedding are exact, where the source computes in
    IEEE 754 binary64.  The computations whose result depends on the
    rounding are embedded a second time here, over the primitive floats:
    the X axes of the XY grid, and the way of a position through a run. *)

Module Binary64.
Import PrimFloat.

Definition of_nat (n : nat) : float := of_uint63 (Uint63.of_Z (Z.of_nat n)).

Definition maximum (a b : float) : float := if (a <? b)%float then b else a.

Definition minimum (a b : float) : float := if (b <? a)%float then b else a.

(** [np.clip(a, a_min, a_max)] *)
Definition clip (a a_min a_max : float) : float := minimum (maximum a a_min) a_max.

(** [np.linspace(start, stop, num)]: [arange(num) * step + start] with
    [step = (stop - start) / (num - 1)], or [arange(num) / (num - 1) *
    (stop - start) + start] when that step is zero; the last sample is
    overwritten by [stop] when [num > 1]. *)
Definition linspace (start stop : float) (num : nat) : list float :=
  let div := (num - 1)%nat in
  let delta := (stop - start)%float in
  map (fun i =>
         if (1 <? num)%nat && (i =? div)%nat then stop
         else if (0 <? div)%nat then
           let step := (delta / of_nat div)%float in
           if (step =? 0)%float
           then (of_nat i / of_nat div * delta + start)%float
           else (of_nat i * step + start)%float
         else (of_nat i * delta + start)%float)
      (seq 0 num).

(** [_X_values] and [_return_X_values] as [_initialize_xy_refocus_image]
    builds them around the estimate [x0]. *)
Definition X_values (x0 size : float) (x_range : float * float) (res : nat)
  : list float :=
  let xmin := clip (x0 - 0.5 * size) (fst x_range) (snd x_range) in
  let xmax := clip (x0 + 0.5 * size) (fst x_range) (snd x_range) in
  linspace xmin xmax res.

Definition return_X_values (x0 size : float) (x_range : float * float) (res : nat)
  : list float :=
  let xmin := clip (x0 - 0.5 * size) (fst x_range) (snd x_range) in
  let xmax := clip (x0 + 0.5 * size) (fst x_range) (snd x_range) in
  linspace xmax xmin res.


(** [a == b] entry by entry. *)
Definition eqb_each (a b : list float) : list bool :=
  map (fun p => (fst p =? snd p)%float) (combine a b).



End Binary64.

(** ** The methods of [OptimizerLogic] *)

Section OptimizerLogic.

Variable dev : ConfocalScanner.
Variable fitlogic : FitLogic.
Variable scipy : Scipy.

(** [self._scanning_device.scan_line(line)] *)
Definition device_scan_line (line : Line) : M Counts :=
  fun s => Some (scan_line dev (length (scan_log s)) line,
                 set_scan_log (scan_log s ++ [line]) s).

Definition check_optimization_sequence : M unit :=
  sequence <- get optimization_sequence;;
  if existsb (fun step => negb ((step =? "XY")%string || (step =? "Z")%string))
             sequence
  then put (set_optimization_sequence ["XY"; "Z"])
  else ret tt.

(** The status is [0] on success and [-1] on error.  The framework's
    [module_state] is only recorded in [locked]: that it refuses to lock a
    locked module or to unlock an idle one is not modelled. *)
Definition start_scanner : M Z :=
  put (set_locked true);;
  if (set_up_scanner_clock dev <? 0)%Z then
    put (set_locked false);;
    ret (-1)%Z
  else if (set_up_scanner dev <? 0)%Z then
    n <- get closed_clock;;
    put (set_closed_clock (S n));;
    _ <- try_ (close_scanner_clock dev n);;
    put (set_locked false);;
    ret (-1)%Z
  else ret 0%Z.

Definition kill_scanner : M Z :=
  n <- get closed_scanner;;
  put (set_closed_scanner (S n));;
  match close_scanner dev n with
  | None => ret (-1)%Z
  | Some rv =>
      m <- get closed_clock;;
      put (set_closed_clock (S m));;
      match close_scanner_clock dev m with
      | None => ret (-1)%Z
      | Some rv2 =>
          put (set_locked false);;
          ret (rv + rv2)%Z
      end
  end.

Definition stop_refocus : M unit :=
  put (set_stopRequested true);;
  stop <- get stopRequested;;
  if stop then emit _sigScanNextXyLine else ret tt.

(** The cursor of a template fit is added back exactly here;
    [finish_position_of] is that step for any arithmetic. *)
Definition finish_refocus : M unit :=
  let n_ch := get_scanner_axes dev in
  _ <- kill_scanner;;
  ft <- get (fun s => fit_type (cfg s));;
  cursor <- get (fun s => template_cursor (cfg s));;
  (if in_xy_template ft then
     c0 <- try_ (nth_error cursor 0);;
     put (fun s => set_initial_pos_x (_initial_pos_x s + c0) s);;
     c1 <- try_ (nth_error cursor 1);;
     put (fun s => set_initial_pos_y (_initial_pos_y s + c1) s);;
     put (fun s => set_optim_pos_x (optim_pos_x s + c0) s);;
     put (fun s => set_optim_pos_y (optim_pos_y s + c1) s)
   else ret tt);;
  (if in_z_template ft then
     c2 <- try_ (nth_error cursor 2);;
     put (fun s => set_initial_pos_z (_initial_pos_z s + c2) s);;
     put (fun s => set_optim_pos_z (optim_pos_z s + c2) s)
   else ret tt);;
  tag <- get _caller_tag;;
  x <- get optim_pos_x;;
  y <- get optim_pos_y;;
  z <- get optim_pos_z;;
  publish (sigRefocusFinished tag (firstn n_ch [x; y; z; 0])).

(** [initial_pos] is [None], or a list or array.  One shorter than three
    entries leaves the initial position as it was.  The cursor of a template
    fit is subtracted exactly here; [start_position_of] is that step for any
    arithmetic. *)
Definition start_refocus (initial_pos : option (list Q))
           (caller_tag tag : string) : M unit :=
  (match initial_pos with
   | Some (x :: y :: z :: _) =>
       put (set_initial_pos_x x);;
       put (set_initial_pos_y y);;
       put (set_initial_pos_z z)
   | Some _ => ret tt
   | None =>
       scpos <- get (fun s => get_scanner_position dev (length (scan_log s)));;
       match firstn 3 scpos with
       | [x; y; z] =>
           put (set_initial_pos_x x);;
           put (set_initial_pos_y y);;
           put (set_initial_pos_z z)
       | _ => try_ None
       end
   end);;
  ft <- get (fun s => fit_type (cfg s));;
  cursor <- get (fun s => template_cursor (cfg s));;
  (if in_xy_template ft then
     c0 <- try_ (nth_error cursor 0);;
     put (fun s => set_initial_pos_x (_initial_pos_x s - c0) s);;
     c1 <- try_ (nth_error cursor 1);;
     put (fun s => set_initial_pos_y (_initial_pos_y s - c1) s)
   else ret tt);;
  (if in_z_template ft then
     c2 <- try_ (nth_error cursor 2);;
     put (fun s => set_initial_pos_z (_initial_pos_z s - c2) s)
   else ret tt);;
  put (set_caller_tag caller_tag);;
  put (fun s => set_optim_pos_x (_initial_pos_x s) s);;
  put (fun s => set_optim_pos_y (_initial_pos_y s) s);;
  put (fun s => set_optim_pos_z (_initial_pos_z s) s);;
  put (set_optim_sigma_x 0);;
  put (set_optim_sigma_y 0);;
  put (set_optim_sigma_z 0);;
  put (set_xy_scan_line_count 0);;
  put (set_optimization_step 0);;
  check_optimization_sequence;;
  scanner_status <- start_scanner;;
  if (scanner_status <? 0)%Z then
    ctag <- get _caller_tag;;
    x <- get optim_pos_x;;
    y <- get optim_pos_y;;
    z <- get optim_pos_z;;
    publish (sigRefocusFinished ctag [x; y; z; 0])
  else
    publish (sigRefocusStarted tag);;
    emit _sigDoNextOptimizationStep.

(** [_Z_values] (the Z estimate for every X sample), [_A_values] and
    [_return_A_values] (zeros) are assigned by the source and read nowhere;
    they are left out.  The Z target that is scanned is the third entry of
    the image cells, the Z estimate as it is. *)
Definition _initialize_xy_refocus_image : M unit :=
  put (set_xy_scan_line_count 0);;
  x0 <- get optim_pos_x;;
  y0 <- get optim_pos_y;;
  z0 <- get optim_pos_z;;
  c <- get cfg;;
  let xmin := Np.clip (x0 - 0.5 * refocus_XY_size c) (fst (x_range c)) (snd (x_range c)) in
  let xmax := Np.clip (x0 + 0.5 * refocus_XY_size c) (fst (x_range c)) (snd (x_range c)) in
  let ymin := Np.clip (y0 - 0.5 * refocus_XY_size c) (fst (y_range c)) (snd (y_range c)) in
  let ymax := Np.clip (y0 + 0.5 * refocus_XY_size c) (fst (y_range c)) (snd (y_range c)) in
  put (set_X_values (Np.linspace xmin xmax (optimizer_XY_res c)));;
  put (set_Y_values (Np.linspace ymin ymax (optimizer_XY_res c)));;
  put (set_return_X_values (Np.linspace xmax xmin (optimizer_XY_res c)));;
  X <- get _X_values;;
  Y <- get _Y_values;;
  let blank := blank_image X Y z0 (get_scanner_count_channels dev) in
  put (set_xy_refocus_image blank);;
  tag <- get _caller_tag;;
  template <- get xy_template_image;;
  renew <- (if (tag =? "xy_template_image")%string then ret true
            else m <- try_ (Np.max (concat (concat template)));;
                 ret (Qeq_bool m 0));;
  if renew : bool then put (set_xy_template_image blank) else ret tt.

(** [_fit_zimage_Z_values], [_zimage_A_values] and [z_fit_data] are left
    out. *)
Definition _initialize_z_refocus_image : M unit :=
  put (set_xy_scan_line_count 0);;
  z0 <- get optim_pos_z;;
  c <- get cfg;;
  let zmin := Np.clip (z0 - 0.5 * refocus_Z_size c) (fst (z_range c)) (snd (z_range c)) in
  let zmax := Np.clip (z0 + 0.5 * refocus_Z_size c) (fst (z_range c)) (snd (z_range c)) in
  put (set_zimage_Z_values (Np.linspace zmin zmax (optimizer_Z_res c)));;
  Zs <- get _zimage_Z_values;;
  let s_ch := get_scanner_count_channels dev in
  put (set_z_refocus_line (repeat (Np.zeros s_ch) (length Zs)));;
  tag <- get _caller_tag;;
  template <- get z_template_data;;
  renew <- (if (tag =? "z_template_image")%string then ret true
            else m <- try_ (Np.max (concat template));;
                 ret (Qeq_bool m 0));;
  if renew : bool then
    put (set_zimage_template_Z_values
           (Np.linspace (zmin - z0) (zmax - z0) (optimizer_Z_res c)));;
    tZ <- get zimage_template_Z_values;;
    put (set_z_template_data (repeat (Np.zeros s_ch) (length tZ)))
  else ret tt.

(** The status is [0] on success and [-1] when the device reports the
    error sentinel.  The settle-time sleep has no effect on the state. *)
Definition _move_to_start_pos (start_pos : Q * Q * Q) : M Z :=
  let '(x, y, z) := start_pos in
  let n_ch := get_scanner_axes dev in
  scanner_pos <- get (fun s => get_scanner_position dev (length (scan_log s)));;
  slowness <- get (fun s => return_slowness (cfg s));;
  p0 <- try_ (nth_error scanner_pos 0);;
  let lsx := Np.linspace p0 x slowness in
  p1 <- try_ (nth_error scanner_pos 1);;
  let lsy := Np.linspace p1 y slowness in
  p2 <- try_ (nth_error scanner_pos 2);;
  let lsz := Np.linspace p2 z slowness in
  move_to_start_line <-
    (if (n_ch <=? 3)%nat then try_ (vstack (firstn n_ch [lsx; lsy; lsz]))
     else p3 <- try_ (nth_error scanner_pos 3);;
          try_ (vstack [lsx; lsy; lsz; Np.full (length lsx) p3]));;
  counts <- device_scan_line move_to_start_line;;
  if Np.any_eq (-1) counts then ret (-1)%Z else ret 0%Z.

(** [image[k, 0, j]] *)
Definition image_at (img : Image) (k j : nat) : option Q :=
  match nth_error img k with
  | Some (cell :: _) => nth_error cell j
  | _ => None
  end.

Definition _refocus_xy_line : M unit :=
  let n_ch := get_scanner_axes dev in
  stop <- get stopRequested;;
  if stop : bool then
    put (set_stopRequested false);;
    finish_refocus;;
    publish sigImageUpdated
  else
    k <- get _xy_scan_line_count;;
    img <- get xy_refocus_image;;
    status <- (if (k =? 0)%nat then
                 x <- try_ (image_at img 0 0);;
                 y <- try_ (image_at img 0 1);;
                 z <- try_ (image_at img 0 2);;
                 _move_to_start_pos (x, y, z)
               else ret 0%Z);;
    if (status <? 0)%Z then
      stop_refocus;;
      emit _sigScanNextXyLine
    else
      row <- try_ (nth_error img k);;
      lsx <- try_ (Np.column 0 row);;
      lsy <- try_ (Np.column 1 row);;
      lsz <- try_ (Np.column 2 row);;
      line <- (if (n_ch <=? 3)%nat then try_ (vstack (firstn n_ch [lsx; lsy; lsz]))
               else try_ (vstack [lsx; lsy; lsz; Np.zeros (length lsx)]));;
      line_counts <- device_scan_line line;;
      if Np.any_eq (-1) line_counts then
        stop_refocus;;
        emit _sigScanNextXyLine
      else
        rx <- get _return_X_values;;
        y0 <- try_ (image_at img k 1);;
        z0 <- try_ (image_at img k 2);;
        let ry := Np.full (length rx) y0 in
        let rz := Np.full (length rx) z0 in
        return_line <- (if (n_ch <=? 3)%nat then try_ (vstack [rx; ry; rz])
                        else try_ (vstack [rx; ry; rz; Np.zeros (length rx)]));;
        return_line_counts <- device_scan_line return_line;;
        if Np.any_eq (-1) return_line_counts then
          stop_refocus;;
          emit _sigScanNextXyLine
        else
          let s_ch := get_scanner_count_channels dev in
          img' <- try_ (assign_line s_ch k line_counts img);;
          put (set_xy_refocus_image img');;
          tag <- get _caller_tag;;
          (if (tag =? "xy_template_image")%string then
             template <- get xy_template_image;;
             template' <- try_ (assign_line s_ch k line_counts template);;
             put (set_xy_template_image template')
           else ret tt);;
          publish sigImageUpdated;;
          put (set_xy_scan_line_count (S k));;
          Y <- get _Y_values;;
          if (S k <? length Y)%nat then emit _sigScanNextXyLine
          else emit _sigCompletedXyOptimizerScan.

(** The template estimate of the XY position.  [x] and [y] are the
    flattened axes. *)
Definition xy_template_fit (x y : list Q) (data template : list (list Q))
  : M Fit2D.result :=
  called XyTemplateFit;;
  let fit_template := rev (map (@rev Q) template) in
  tmin <- try_ (Np.min (concat fit_template));;
  let fillvalue := tmin + 0.7 * (Np.mean (concat fit_template) - tmin) in
  let '((m0, m1), (xc, yc)) := convolve2d_argmax scipy fit_template data fillvalue in
  res <- get (fun s => optimizer_XY_res (cfg s));;
  let x0 := Qnat res in
  let y0 := Qnat res in
  let shift_x := Qnat m1 - (Qnat xc / 2) + 0.5 in
  let shift_y := Qnat m0 - (Qnat yc / 2) + 0.5 in
  xmax <- try_ (Np.max x);;
  xmin <- try_ (Np.min x);;
  ymax <- try_ (Np.max y);;
  ymin <- try_ (Np.min y);;
  px <- get optim_pos_x;;
  py <- get optim_pos_y;;
  ret {| Fit2D.success := true;
         Fit2D.center_x := px + shift_x / x0 * (xmax - xmin);
         Fit2D.center_y := py + shift_y / y0 * (ymax - ymin);
         Fit2D.sigma_x := 1 / x0 * (xmax - xmin);
         Fit2D.sigma_y := 1 / y0 * (ymax - ymin) |}.

(** The estimate of the XY position from the completed image: the first
    half of [_set_optimized_xy_from_fit], up to [result_2D_gaus]. *)
Definition xy_estimate : M Fit2D.result :=
  X <- get _X_values;;
  Y <- get _Y_values;;
  let fit_x := concat (map (fun _ => X) Y) in
  let fit_y := concat (map (fun y => map (fun _ => y) X) Y) in
  img <- get xy_refocus_image;;
  ch <- get (fun s => opt_channel (cfg s));;
  data <- try_ (image_channel (3 + ch) img);;
  ft <- get (fun s => fit_type (cfg s));;
  if negb (in_xy_template ft) then
    called TwoDGaussianFit;;
    ret (make_twoDgaussian_fit fitlogic fit_x fit_y (concat data))
  else
    template <- get xy_template_image;;
    template_data <- try_ (image_channel (3 + ch) template);;
    xy_template_fit fit_x fit_y data template_data.

(** What [_set_optimized_xy_from_fit] does with [result_2D_gaus]. *)
Definition xy_accept (r : Fit2D.result) : M unit :=
  c <- get cfg;;
  ix <- get _initial_pos_x;;
  iy <- get _initial_pos_y;;
  if negb (Fit2D.success r) then
    put (set_optim_pos_x ix);;
    put (set_optim_pos_y iy);;
    put (set_optim_sigma_x 0);;
    put (set_optim_sigma_y 0)
  else if Qltb (Qabs (ix - Fit2D.center_x r)) (_max_offset c)
          && Qltb (Qabs (ix - Fit2D.center_x r)) (_max_offset c) then
    if Qle_bool (fst (x_range c)) (Fit2D.center_x r)
       && Qle_bool (Fit2D.center_x r) (snd (x_range c)) then
      if Qle_bool (fst (y_range c)) (Fit2D.center_y r)
         && Qle_bool (Fit2D.center_y r) (snd (y_range c)) then
        put (set_optim_pos_x (Fit2D.center_x r));;
        put (set_optim_pos_y (Fit2D.center_y r));;
        put (set_optim_sigma_x (Fit2D.sigma_x r));;
        put (set_optim_sigma_y (Fit2D.sigma_y r))
      else ret tt
    else ret tt
  else
    put (set_optim_pos_x ix);;
    put (set_optim_pos_y iy);;
    put (set_optim_sigma_x 0);;
    put (set_optim_sigma_y 0).

Definition _set_optimized_xy_from_fit : M unit :=
  tag <- get _caller_tag;;
  if (tag =? "xy_template_image")%string then
    put (fun s => set_optim_pos_x (_initial_pos_x s) s);;
    put (fun s => set_optim_pos_y (_initial_pos_y s) s);;
    put (set_optim_sigma_x 0);;
    put (set_optim_sigma_y 0);;
    publish sigImageUpdated;;
    emit _sigDoNextOptimizationStep
  else
    result_2D_gaus <- xy_estimate;;
    xy_accept result_2D_gaus;;
    publish sigImageUpdated;;
    emit _sigDoNextOptimizationStep.

(** The template estimate of the Z position; the plots it draws are left
    out.  The second component is [z_index_shift]. *)
Definition z_template_fit (x_axis data template : list Q)
  : M (Fit1D.result * Q) :=
  called ZTemplateFit;;
  let fit_data := rev data in
  first <- try_ (nth_error fit_data 0);;
  last <- try_ (nth_error data 0);;
  let default_edge := (first + last) / 2 in
  let convoluted := ndi_convolve scipy fit_data template default_edge in
  let template_size := length template in
  let conv_size := length convoluted in
  called GaussianLinearOffsetFit;;
  let result := make_gaussianlinearoffset_fit fitlogic
                  (map Qnat (seq 0 conv_size)) convoluted in
  let z_index_shift :=
    Np.clip (Fit1D.center result) 0 (Qnat conv_size) - (Qnat conv_size / 2) in
  amax <- try_ (Np.max x_axis);;
  amin <- try_ (Np.min x_axis);;
  let z_shift := z_index_shift / Qnat template_size * (amax - amin) in
  pz <- get optim_pos_z;;
  ret ({| Fit1D.success := true;
          Fit1D.center := pz - z_shift;
          Fit1D.sigma := 0 |}, z_index_shift).

Definition _scan_z_line : M unit :=
  x0 <- get optim_pos_x;;
  y0 <- get optim_pos_y;;
  Zs <- get _zimage_Z_values;;
  z_first <- try_ (nth_error Zs 0);;
  status <- _move_to_start_pos (x0, y0, z_first);;
  if (status <? 0)%Z then stop_refocus
  else
    let n_ch := get_scanner_axes dev in
    let scan_z_line := Zs in
    let scan_x_line := Np.full (length Zs) x0 in
    let scan_y_line := Np.full (length Zs) y0 in
    line <- (if (n_ch <=? 3)%nat
             then try_ (vstack (firstn n_ch [scan_x_line; scan_y_line; scan_z_line]))
             else try_ (vstack [scan_x_line; scan_y_line; scan_z_line;
                                Np.zeros (length scan_x_line)]));;
    line_counts <- device_scan_line line;;
    if Np.any_eq (-1) line_counts then stop_refocus
    else
      put (set_z_refocus_line line_counts);;
      tag <- get _caller_tag;;
      (if (tag =? "z_template_image")%string
       then put (set_z_template_data line_counts) else ret tt);;
      c <- get cfg;;
      if do_surface_subtraction c then
        let off := surface_subtr_scan_offset c in
        z_first' <- try_ (nth_error Zs 0);;
        status' <- _move_to_start_pos (x0 + off, y0, z_first');;
        if (status' <? 0)%Z then stop_refocus
        else
          let bg_x_line := map (fun x => x + off) scan_x_line in
          line_bg <- (if (n_ch <=? 3)%nat
                      then try_ (vstack (firstn n_ch [bg_x_line; scan_y_line; scan_z_line]))
                      else try_ (vstack [bg_x_line; scan_y_line; scan_z_line;
                                         Np.zeros (length scan_x_line)]));;
          line_bg_counts <- device_scan_line line_bg;;
          bg0 <- try_ (nth_error line_bg_counts 0);;
          if existsb (fun v => Qeq_bool v (-1)) bg0 then stop_refocus
          else
            diff <- try_ (Np.sub2 line_counts line_bg_counts);;
            put (set_z_refocus_line diff);;
            (if (tag =? "z_template_image")%string
             then put (set_z_template_data diff) else ret tt)
      else ret tt.

(** The estimate of the Z position from the scanned line: the part of
    [do_z_optimization] from [z_index_shift = 0] to [result]. *)
Definition z_estimate : M Fit1D.result :=
  c <- get cfg;;
  Zs <- get _zimage_Z_values;;
  line <- get z_refocus_line;;
  if in_z_template (fit_type c) then
    data <- try_ (Np.column (opt_channel c) line);;
    template_line <- get z_template_data;;
    template <- try_ (Np.column (opt_channel c) template_line);;
    r <- z_template_fit Zs data template;;
    ret (fst r)
  else if do_surface_subtraction c then
    data <- try_ (Np.column (opt_channel c) line);;
    m <- try_ (Np.max data);;
    called GaussPeakLinearOffsetFit;;
    ret (make_gausspeaklinearoffset_fit fitlogic Zs data (Some (1e-12, - m, m)))
  else if use_custom_params c then
    data <- try_ (Np.column (opt_channel c) line);;
    called GaussPeakLinearOffsetFit;;
    ret (make_gausspeaklinearoffset_fit fitlogic Zs data None)
  else
    data <- try_ (Np.column (opt_channel c) line);;
    called GaussianLinearOffsetFit;;
    ret (make_gaussianlinearoffset_fit fitlogic Zs data).

(** What [do_z_optimization] does with [result].  The [else] that moves
    to an edge of the scan window belongs to the check of the scanner
    range, as the indentation of the source has it.  The update of the
    display-only [z_fit_data] is left out. *)
Definition z_accept (r : Fit1D.result) : M unit :=
  c <- get cfg;;
  iz <- get _initial_pos_z;;
  if negb (Fit1D.success r) then
    put (set_optim_pos_z iz);;
    put (set_optim_sigma_z 0)
  else if Qltb (Qabs (iz - Fit1D.center r)) (_max_offset c) then
    if Qle_bool (fst (z_range c)) (Fit1D.center r)
       && Qle_bool (Fit1D.center r) (snd (z_range c)) then
      put (set_optim_pos_z (Fit1D.center r));;
      put (set_optim_sigma_z (Fit1D.sigma r))
    else
      put (set_optim_sigma_z 0);;
      if Qltb iz (Fit1D.center r) then
        if Qle_bool (iz + 0.5 * refocus_Z_size c) (snd (z_range c))
        then put (set_optim_pos_z (iz + 0.5 * refocus_Z_size c))
        else put (set_optim_pos_z (snd (z_range c)))
      else
        if Qle_bool (fst (z_range c)) (iz + 0.5 * refocus_Z_size c)
        then put (set_optim_pos_z (iz + 0.5 * refocus_Z_size c))
        else put (set_optim_pos_z (fst (z_range c)))
  else ret tt.

Definition do_z_optimization : M unit :=
  _scan_z_line;;
  tag <- get _caller_tag;;
  if (tag =? "z_template_image")%string then
    put (fun s => set_optim_pos_z (_initial_pos_z s) s);;
    put (set_optim_sigma_z 0);;
    publish sigImageUpdated;;
    emit _sigDoNextOptimizationStep
  else
    result <- z_estimate;;
    z_accept result;;
    publish sigImageUpdated;;
    emit _sigDoNextOptimizationStep.

Definition _do_next_optimization_step : M unit :=
  tag <- get _caller_tag;;
  step <- get _optimization_step;;
  if (tag =? "xy_template_image")%string then
    if (1 <=? step)%nat then finish_refocus
    else
      put (set_optimization_step (S step));;
      _initialize_xy_refocus_image;;
      emit _sigScanNextXyLine
  else if (tag =? "z_template_image")%string then
    if (1 <=? step)%nat then finish_refocus
    else
      put (set_optimization_step (S step));;
      _initialize_z_refocus_image;;
      emit _sigScanZLine
  else
    sequence <- get optimization_sequence;;
    if (step =? length sequence)%nat then finish_refocus
    else
      this_step <- try_ (nth_error sequence step);;
      put (set_optimization_step (S step));;
      if (this_step =? "XY")%string then
        _initialize_xy_refocus_image;;
        emit _sigScanNextXyLine
      else if (this_step =? "Z")%string then
        _initialize_z_refocus_image;;
        emit _sigScanZLine
      else ret tt.

(** ** The event loop *)

(** The slot connected to each queued signal. *)
Definition slot (sig : Signal) : M unit :=
  match sig with
  | _sigScanNextXyLine => _refocus_xy_line
  | _sigScanZLine => do_z_optimization
  | _sigCompletedXyOptimizerScan => _set_optimized_xy_from_fit
  | _sigDoNextOptimizationStep => _do_next_optimization_step
  end.

(** How the processing of the queue ends: no signal is pending, the fuel
    ran out with signals still pending, or a slot raised. *)
Inductive Outcome : Type :=
| Idle (s : State)
| Pending (s : State)
| Raised.

Fixpoint event_loop (fuel : nat) (s : State) : Outcome :=
  match queue s with
  | [] => Idle s
  | sig :: rest =>
      match fuel with
      | O => Pending s
      | S fuel' =>
          match slot sig (set_queue rest s) with
          | Some (_, s') => event_loop fuel' s'
          | None => Raised
          end
      end
  end.

(** A whole run: [start_refocus], then the queued slots until none is
    pending. *)
Definition refocus (fuel : nat) (initial_pos : option (list Q))
           (caller_tag tag : string) (s : State) : Outcome :=
  match start_refocus initial_pos caller_tag tag s with
  | Some (_, s') => event_loop fuel s'
  | None => Raised
  end.

End OptimizerLogic.

(** ** Vocabulary of the properties *)

(** A value lies in the closed interval of an axis range [(min, max)]. *)
Definition in_range (r : Q * Q) (v : Q) : Prop := fst r <= v <= snd r.

(** The X and Y targets of an image cell lie in their axis ranges. *)
Definition cell_xy_in_range (xr yr : Q * Q) (cell : list Q) : Prop :=
  match cell with
  | x :: y :: _ => in_range xr x /\ in_range yr y
  | _ => False
  end.

(** The three targets of an image cell lie in their axis ranges. *)
Definition cell_in_range (xr yr zr : Q * Q) (cell : list Q) : Prop :=
  match cell with
  | x :: y :: z :: _ => in_range xr x /\ in_range yr y /\ in_range zr z
  | _ => False
  end.

(** [np.max(template)] has a value, or is not evaluated because the run
    captures the template. *)
Definition xy_template_readable (s : State) : Prop :=
  _caller_tag s = "xy_template_image" \/ concat (concat (xy_template_image s)) <> [].

Definition z_template_readable (s : State) : Prop :=
  _caller_tag s = "z_template_image" \/ concat (z_template_data s) <> [].


(** The run-finished events of a log of public signals. *)
Definition finished (evs : list Event) : list (string * list Q) :=
  flat_map (fun e => match e with
                     | sigRefocusFinished t p => [(t, p)]
                     | _ => []
                     end) evs.

(** The position a run is asked to start from: the first three entries of
    [initial_pos], the position of the scanner when there is none, the
    stored initial position when [initial_pos] is too short. *)
Definition starting_position (dev : ConfocalScanner)
           (initial_pos : option (list Q)) (s : State) : option (Q * Q * Q) :=
  match initial_pos with
  | Some (x :: y :: z :: _) => Some (x, y, z)
  | Some _ => Some (_initial_pos_x s, _initial_pos_y s, _initial_pos_z s)
  | None =>
      match firstn 3 (get_scanner_position dev (length (scan_log s))) with
      | [x; y; z] => Some (x, y, z)
      | _ => None
      end
  end.




(** The template cursor has the three entries the template fit modes
    read. *)
Definition cursor_ready (c : Settings) : Prop :=
  (3 <= length (template_cursor c))%nat.

(** The cursor shift that [start_refocus] subtracts from the initial position
    and [finish_refocus] adds back, per axis. *)
Definition cursor_offset (c : Settings) : Q * Q * Q :=
  (if in_xy_template (fit_type c) then nth 0 (template_cursor c) 0 else 0,
   if in_xy_template (fit_type c) then nth 1 (template_cursor c) 0 else 0,
   if in_z_template (fit_type c) then nth 2 (template_cursor c) 0 else 0).








(** ** Example configurations *)

Definition example_settings (xy_res z_res : nat) (surface : bool) : Settings := {|
  return_slowness := 2;
  refocus_XY_size := 2;
  optimizer_XY_res := xy_res;
  refocus_Z_size := 2;
  optimizer_Z_res := z_res;
  do_surface_subtraction := surface;
  surface_subtr_scan_offset := 1;
  opt_channel := 0;
  fit_type := "normal";
  template_cursor := [0; 0; 0; 0];
  use_custom_params := false;
  _max_offset := 3;
  x_range := (-10, 10);
  y_range := (-10, 10);
  z_range := (-10, 10)
|}.

(** An idle optimizer at the origin, with all-zero templates. *)
Definition example_state (c : Settings) (sequence : list string) : State := {|
  cfg := c;
  optimization_sequence := sequence;
  stopRequested := false;
  _caller_tag := "";
  _initial_pos_x := 0; _initial_pos_y := 0; _initial_pos_z := 0;
  optim_pos_x := 0; optim_pos_y := 0; optim_pos_z := 0;
  optim_sigma_x := 0; optim_sigma_y := 0; optim_sigma_z := 0;
  _xy_scan_line_count := 0;
  _optimization_step := 0;
  _X_values := []; _Y_values := []; _return_X_values := [];
  xy_refocus_image := [];
  xy_template_image := [[[0]]];
  _zimage_Z_values := [];
  z_refocus_line := [];
  z_template_data := [[0]];
  zimage_template_Z_values := [0];
  queue := [];
  emitted := [];
  scan_log := [];
  fit_log := [];
  closed_scanner := 0;
  closed_clock := 0;
  locked := false
|}.

(** A three-axis scanner with one counting channel.  Line scan number [n]
    answers [answer n] when there is one and 7 counts per point
    otherwise. *)
Definition example_scanner (answer : nat -> option Counts) : ConfocalScanner := {|
  get_scanner_axes := 3;
  get_scanner_count_channels := 1;
  get_scanner_position := fun _ => [0; 0; 0];
  set_up_scanner_clock := 0;
  set_up_scanner := 0;
  scan_line := fun n line =>
                 match answer n with
                 | Some counts => counts
                 | None => repeat [7] (length (hd [] line))
                 end;
  close_scanner := fun _ => Some 0%Z;
  close_scanner_clock := fun _ => Some 0%Z
|}.

Definition steady_scanner : ConfocalScanner := example_scanner (fun _ => None).

(** A fit service that reports the same result whatever the data. *)
Definition example_fit (ok : bool) (cx cy cz : Q) : FitLogic := {|
  make_twoDgaussian_fit := fun _ _ _ =>
    {| Fit2D.success := ok; Fit2D.center_x := cx; Fit2D.center_y := cy;
       Fit2D.sigma_x := 0.25; Fit2D.sigma_y := 0.25 |};
  make_gaussianlinearoffset_fit := fun _ _ =>
    {| Fit1D.success := ok; Fit1D.center := cz; Fit1D.sigma := 0.25 |};
  make_gausspeaklinearoffset_fit := fun _ _ _ =>
    {| Fit1D.success := ok; Fit1D.center := cz; Fit1D.sigma := 0.25 |}
|}.

Definition example_scipy : Scipy := {|
  convolve2d_argmax := fun _ _ _ => ((0, 0), (1, 1))%nat;
  ndi_convolve := fun input _ _ => input
|}.

(** What is left of a run for inspection. *)
Definition final_state (o : Outcome) : option State :=
  match o with
  | Idle s => Some s
  | _ => None
  end.

(** The state a computation leaves when it returns. *)
Definition state_after {A : Type} (m : M A) (s : State) : State :=
  match m s with
  | Some (_, s') => s'
  | None => s
  end.

(** A successful XY fit one unit off in X and five units off in Y. *)
Definition off_axis_result : Fit2D.result := {|
  Fit2D.success := true;
  Fit2D.center_x := 1;
  Fit2D.center_y := 5;
  Fit2D.sigma_x := 0.25;
  Fit2D.sigma_y := 0.25
|}.

(** A successful Z fit five units above the origin. *)
Definition far_z_result : Fit1D.result := {|
  Fit1D.success := true;
  Fit1D.center := 5;
  Fit1D.sigma := 0.25
|}.

(** An optimizer whose Z estimate was refined by an earlier step. *)
Definition refined_z_state : State :=
  set_optim_pos_z 0.5
    (set_optim_sigma_z 0.125
       (set_zimage_Z_values [-1; 1]
          (example_state (example_settings 2 2 false) ["Z"; "Z"]))).

(** A Z step about to scan its two-point line with surface subtraction. *)
Definition z_scan_state : State :=
  set_zimage_Z_values [-1; 1] (example_state (example_settings 2 2 true) ["Z"]).

(** Scans 1 and 3 are the primary and the background Z line of
    [z_scan_state]; here the background reports the error sentinel in its
    second sample. *)
Definition background_sentinel (n : nat) : option Counts :=
  match n with
  | 1%nat => Some [[9]; [9]]
  | 3%nat => Some [[5]; [-1]]
  | _ => None
  end.

(** The same counts with the sentinel in the primary line. *)
Definition primary_sentinel (n : nat) : option Counts :=
  match n with
  | 1%nat => Some [[5]; [-1]]
  | 3%nat => Some [[9]; [9]]
  | _ => None
  end.

(** Scan 1, the first forward line of an XY step, reports the error
    sentinel; every other scan succeeds. *)
Definition fail_once (n : nat) : option Counts :=
  match n with
  | 1%nat => Some [[-1]]
  | _ => None
  end.

(** An idle optimizer whose Z estimate is beyond the Z range. *)
Definition high_state : State :=
  set_optim_pos_z 30 (example_state (example_settings 2 2 false) ["XY"; "Z"]).



(** ** Vocabulary of the further properties *)

(** A step that [check_optimization_sequence] accepts. *)
Definition known_step (step : string) : Prop := step = "XY" \/ step = "Z".

(** [np.max(a) == 0] is false. *)
Definition nonzero_max (l : list Q) : Prop :=
  exists m, Np.max l = Some m /\ Qeq_bool m 0 = false.

(** The targets of an image: the first three entries of every cell. *)
Definition coordinates (img : Image) : Image := map (map (firstn 3)) img.

(** What a slot never does to the stored templates: the caller tag stays,
    and a template whose maximum is not zero is only replaced in a run that
    captures it. *)
Record keeps_templates (s s' : State) : Prop := {
  kept_tag : _caller_tag s' = _caller_tag s;
  kept_xy :
    _caller_tag s <> "xy_template_image" ->
    nonzero_max (concat (concat (xy_template_image s))) ->
    xy_template_image s' = xy_template_image s;
  kept_z :
    _caller_tag s <> "z_template_image" ->
    nonzero_max (concat (z_template_data s)) ->
    z_template_data s' = z_template_data s /\
    zimage_template_Z_values s' = zimage_template_Z_values s
}.

(** A pending stop request is still pending. *)
Definition keeps_stop_request (s s' : State) : Prop :=
  stopRequested s = true -> stopRequested s' = true.

(** The state in which the event loop stopped, when no slot raised. *)
Definition last_state (o : Outcome) : option State :=
  match o with
  | Idle s => Some s
  | Pending s => Some s
  | Raised => None
  end.

(** The tag of the run and the stored templates. *)
Definition stored (s : State) : string * Image * Counts * list Q :=
  (_caller_tag s, xy_template_image s, z_template_data s,
   zimage_template_Z_values s).

(** A scanner whose clock cannot be set up. *)
Definition clockless_scanner : ConfocalScanner := {|
  get_scanner_axes := 3;
  get_scanner_count_channels := 1;
  get_scanner_position := fun _ => [0; 0; 0];
  set_up_scanner_clock := (-1)%Z;
  set_up_scanner := 0;
  scan_line := fun _ line => repeat [7] (length (hd [] line));
  close_scanner := fun _ => Some 0%Z;
  close_scanner_clock := fun _ => Some 0%Z
|}.


(** An idle optimizer that holds templates captured earlier. *)
Definition templated_state : State :=
  set_xy_template_image [[[0; 0; 0; 5]]]
    (set_z_template_data [[5]]
       (example_state (example_settings 2 2 false) ["XY"; "Z"])).

(** An XY step of two by two points, allocated and about to scan. *)
Definition xy_scan_state : State :=
  state_after (_initialize_xy_refocus_image steady_scanner)
    (example_state (example_settings 2 2 false) ["XY"]).

(** * Properties *)

(** ** Proof tools *)

Ltac unfold_monad :=
  unfold emit, publish, called in *;
  unfold bind, get, put, ret, try_ in *.

Ltac simpl_state :=
  cbn [cfg optimization_sequence stopRequested _caller_tag _initial_pos_x
       _initial_pos_y _initial_pos_z optim_pos_x optim_pos_y optim_pos_z
       optim_sigma_x optim_sigma_y optim_sigma_z _xy_scan_line_count
       _optimization_step _X_values _Y_values _return_X_values
       xy_refocus_image xy_template_image _zimage_Z_values z_refocus_line
       z_template_data zimage_template_Z_values queue emitted scan_log fit_log
       closed_scanner closed_clock locked set_optimization_sequence
       set_stopRequested set_caller_tag set_initial_pos_x set_initial_pos_y
       set_initial_pos_z set_optim_pos_x set_optim_pos_y set_optim_pos_z
       set_optim_sigma_x set_optim_sigma_y set_optim_sigma_z
       set_xy_scan_line_count set_optimization_step set_X_values set_Y_values
       set_return_X_values set_xy_refocus_image set_xy_template_image
       set_zimage_Z_values set_z_refocus_line set_z_template_data
       set_zimage_template_Z_values set_queue set_emitted set_scan_log
       set_fit_log set_closed_scanner set_closed_clock set_locked] in *.

(** The scrutinee is not itself a case analysis. *)
Ltac is_atom o :=
  lazymatch o with
  | context [match _ with Some _ => _ | None => _ end] => fail
  | context [if _ then _ else _] => fail
  | _ => idtac
  end.

(** Case analysis along the run of a monadic computation that is known to
    return. *)
Ltac run_in H :=
  repeat match type of H with
    | context [match ?o with Some _ => _ | None => _ end] =>
        is_atom o; destruct o eqn:?; try discriminate H
    | context [if ?b then _ else _] =>
        is_atom b; destruct b eqn:?; try discriminate H
    | context [let '(_, _) := ?p in _] => is_atom p; destruct p
    end.

(** ** Rationals *)

Lemma Qltb_lt (a b : Q) : Qltb a b = true <-> a < b.
Proof.
  unfold Qltb. rewrite negb_true_iff. split; intros H.
  - apply Qnot_le_lt. intros Hle. apply Qle_bool_iff in Hle. congruence.
  - destruct (Qle_bool b a) eqn:E; [|reflexivity].
    apply Qle_bool_iff in E. exfalso. apply (Qlt_not_le _ _ H E).
Qed.


Lemma Qnat_nonneg (n : nat) : 0 <= Qnat n.
Proof. unfold Qnat. change 0 with (inject_Z 0). rewrite <- Zle_Qle. lia. Qed.

Lemma Qnat_le (n m : nat) : (n <= m)%nat -> Qnat n <= Qnat m.
Proof. intros H. unfold Qnat. rewrite <- Zle_Qle. lia. Qed.

Lemma Qnat_pos (n : nat) : (0 < n)%nat -> 0 < Qnat n.
Proof. intros H. unfold Qnat. change 0 with (inject_Z 0). rewrite <- Zlt_Qlt. lia. Qed.

Lemma Qnat_sub (n m : nat) : (m <= n)%nat -> Qnat (n - m) == Qnat n - Qnat m.
Proof.
  intros H. unfold Qnat. rewrite Nat2Z.inj_sub by exact H.
  unfold Z.sub. rewrite inject_Z_plus, inject_Z_opp. reflexivity.
Qed.

Lemma in_range_test (r : Q * Q) (v : Q) :
  Qle_bool (fst r) v && Qle_bool v (snd r) = true <-> in_range r v.
Proof.
  unfold in_range. rewrite andb_true_iff, !Qle_bool_iff. reflexivity.
Qed.

Lemma out_of_range_test (r : Q * Q) (v : Q) :
  ~ in_range r v -> Qle_bool (fst r) v && Qle_bool v (snd r) = false.
Proof.
  intros H. apply not_true_is_false. intros E. apply H, in_range_test, E.
Qed.

Lemma Forall2_Qeq_trans (l1 l2 l3 : list Q) :
  Forall2 Qeq l1 l2 -> Forall2 Qeq l2 l3 -> Forall2 Qeq l1 l3.
Proof.
  intros H. revert l3. induction H; intros l3 H3; inversion H3; subst;
    constructor; [etransitivity; eassumption | auto].
Qed.


(** ** The grid builder *)

Lemma clip_in_range (a lo hi : Q) : lo <= hi -> lo <= Np.clip a lo hi <= hi.
Proof.
  intros H. unfold Np.clip. split.
  - apply Q.min_glb; [apply Q.le_max_r | exact H].
  - apply Q.le_min_r.
Qed.

(** A point of the segment from [a] to [b] stays between the bounds of its
    ends. *)
Lemma convex_between (a b lo hi i d : Q) :
  lo <= a <= hi -> lo <= b <= hi -> 0 <= i <= d -> 0 < d ->
  lo <= i * ((b - a) / d) + a <= hi.
Proof.
  intros Ha Hb Hi Hd.
  assert (E : i * ((b - a) / d) + a == (a * (d - i) + b * i) / d).
  { field. lra. }
  rewrite E. split.
  - apply Qle_shift_div_l; [lra|]. nra.
  - apply Qle_shift_div_r; [lra|]. nra.
Qed.

Lemma linspace_in_range (a b lo hi : Q) (n : nat) :
  lo <= a <= hi -> lo <= b <= hi ->
  Forall (fun v => lo <= v <= hi) (Np.linspace a b n).
Proof.
  intros Ha Hb. unfold Np.linspace. apply Forall_map, Forall_forall.
  intros i Hi. apply in_seq in Hi.
  destruct ((1 <? n)%nat && (i =? n - 1)%nat); [exact Hb|].
  destruct (0 <? n - 1)%nat eqn:Hd.
  - apply Nat.ltb_lt in Hd. apply convex_between; auto.
    + split; [apply Qnat_nonneg | apply Qnat_le; lia].
    + apply Qnat_pos; lia.
  - apply Nat.ltb_ge in Hd. assert (i = 0)%nat by lia. subst i.
    unfold Qnat; simpl. setoid_replace (inject_Z 0 * (b - a) + a) with a by ring.
    exact Ha.
Qed.

Lemma length_linspace (a b : Q) (n : nat) : length (Np.linspace a b n) = n.
Proof. unfold Np.linspace. rewrite length_map, length_seq. reflexivity. Qed.

Lemma rev_map_seq {A : Type} (f : nat -> A) (n : nat) :
  rev (map f (seq 0 n)) = map (fun i => f (n - 1 - i)%nat) (seq 0 n).
Proof.
  induction n as [|n IH].
  - reflexivity.
  - replace (map f (seq 0 (S n))) with (map f (seq 0 n) ++ [f n])
      by (rewrite seq_S, map_app; reflexivity).
    rewrite rev_app_distr, IH. cbn [rev app seq map]. f_equal.
    + f_equal. lia.
    + rewrite <- seq_shift, map_map. apply map_ext_in.
      intros i Hi. apply in_seq in Hi. f_equal. lia.
Qed.

Lemma Forall2_map_seq {A : Type} (R : A -> A -> Prop) (f g : nat -> A) (n : nat) :
  (forall i, (i < n)%nat -> R (f i) (g i)) ->
  Forall2 R (map f (seq 0 n)) (map g (seq 0 n)).
Proof.
  intros H.
  assert (G : forall l, Forall (fun i => (i < n)%nat) l ->
                        Forall2 R (map f l) (map g l)).
  { induction l; simpl; intros Hl; constructor.
    - apply H. inversion Hl; assumption.
    - apply IHl. inversion Hl; assumption. }
  apply G. apply Forall_forall. intros i Hi. apply in_seq in Hi. lia.
Qed.

(** Sampling from [b] down to [a] is sampling from [a] up to [b] backwards,
    unless there is a single sample. *)
Lemma linspace_reverse (a b : Q) (n : nat) :
  n <> 1%nat ->
  Forall2 Qeq (Np.linspace b a n) (rev (Np.linspace a b n)).
Proof.
  intros Hn. unfold Np.linspace. rewrite rev_map_seq.
  apply Forall2_map_seq. intros i Hi.
  assert (H1 : (1 <? n)%nat = true) by (apply Nat.ltb_lt; lia).
  assert (H0 : (0 <? n - 1)%nat = true) by (apply Nat.ltb_lt; lia).
  rewrite H1, H0. simpl andb.
  assert (Hd : 0 < Qnat (n - 1)) by (apply Qnat_pos; lia).
  destruct (i =? n - 1)%nat eqn:Ei.
  - apply Nat.eqb_eq in Ei.
    assert (E0 : (n - 1 - i =? n - 1)%nat = false) by (apply Nat.eqb_neq; lia).
    rewrite E0. replace (n - 1 - i)%nat with 0%nat by lia.
    unfold Qnat at 1. simpl. ring.
  - apply Nat.eqb_neq in Ei.
    destruct (n - 1 - i =? n - 1)%nat eqn:E0.
    + apply Nat.eqb_eq in E0. assert (i = 0)%nat by lia. subst i.
      unfold Qnat at 1. simpl. ring.
    + rewrite (Qnat_sub (n - 1) i) by lia. field. lra.
Qed.

Lemma np_max_defined (l : list Q) : l <> [] -> exists m, Np.max l = Some m.
Proof. destruct l; [congruence | intros _; eexists; reflexivity]. Qed.

(** What [_initialize_xy_refocus_image] assigns when it returns. *)
Lemma initialize_xy_axes (dev : ConfocalScanner) (s s' : State) :
  _initialize_xy_refocus_image dev s = Some (tt, s') ->
  let c := cfg s in
  let half := 0.5 * refocus_XY_size c in
  let xmin := Np.clip (optim_pos_x s - half) (fst (x_range c)) (snd (x_range c)) in
  let xmax := Np.clip (optim_pos_x s + half) (fst (x_range c)) (snd (x_range c)) in
  let ymin := Np.clip (optim_pos_y s - half) (fst (y_range c)) (snd (y_range c)) in
  let ymax := Np.clip (optim_pos_y s + half) (fst (y_range c)) (snd (y_range c)) in
  _X_values s' = Np.linspace xmin xmax (optimizer_XY_res c) /\
  _Y_values s' = Np.linspace ymin ymax (optimizer_XY_res c) /\
  _return_X_values s' = Np.linspace xmax xmin (optimizer_XY_res c) /\
  xy_refocus_image s' =
    blank_image (_X_values s') (_Y_values s') (optim_pos_z s)
                (get_scanner_count_channels dev).
Proof.
  unfold _initialize_xy_refocus_image. unfold_monad. simpl_state.
  intros H. run_in H; inversion H; subst; clear H; simpl_state; auto.
Qed.

Lemma initialize_xy_returns (dev : ConfocalScanner) (s : State) :
  xy_template_readable s ->
  exists s', _initialize_xy_refocus_image dev s = Some (tt, s').
Proof.
  intros Hr. unfold _initialize_xy_refocus_image. unfold_monad. simpl_state.
  destruct (_caller_tag s =? "xy_template_image")%string eqn:Etag.
  - eexists; reflexivity.
  - destruct Hr as [Hr | Hr]; [apply String.eqb_eq in Hr; congruence|].
    destruct (np_max_defined _ Hr) as [m ->].
    destruct (Qeq_bool m 0); eexists; reflexivity.
Qed.

Lemma initialize_z_axis (dev : ConfocalScanner) (s s' : State) :
  _initialize_z_refocus_image dev s = Some (tt, s') ->
  let c := cfg s in
  let half := 0.5 * refocus_Z_size c in
  let zmin := Np.clip (optim_pos_z s - half) (fst (z_range c)) (snd (z_range c)) in
  let zmax := Np.clip (optim_pos_z s + half) (fst (z_range c)) (snd (z_range c)) in
  _zimage_Z_values s' = Np.linspace zmin zmax (optimizer_Z_res c).
Proof.
  unfold _initialize_z_refocus_image. unfold_monad. simpl_state.
  intros H. run_in H; inversion H; subst; clear H; simpl_state; auto.
Qed.

Lemma initialize_z_returns (dev : ConfocalScanner) (s : State) :
  z_template_readable s ->
  exists s', _initialize_z_refocus_image dev s = Some (tt, s').
Proof.
  intros Hr. unfold _initialize_z_refocus_image. unfold_monad. simpl_state.
  destruct (_caller_tag s =? "z_template_image")%string eqn:Etag.
  - eexists; reflexivity.
  - destruct Hr as [Hr | Hr]; [apply String.eqb_eq in Hr; congruence|].
    destruct (np_max_defined _ Hr) as [m ->].
    destruct (Qeq_bool m 0); eexists; reflexivity.
Qed.

Lemma blank_image_in_range (xr yr : Q * Q) (X Y : list Q) (z0 : Q) (s_ch : nat) :
  Forall (in_range xr) X -> Forall (in_range yr) Y ->
  Forall (Forall (cell_xy_in_range xr yr)) (blank_image X Y z0 s_ch).
Proof.
  intros HX HY. unfold blank_image.
  apply Forall_map. eapply Forall_impl; [|exact HY].
  intros y Hy. apply Forall_map. eapply Forall_impl; [|exact HX].
  intros x Hx. simpl. split; assumption.
Qed.

Lemma blank_image_z (X Y : list Q) (z0 : Q) (s_ch : nat) :
  Forall (Forall (fun cell => nth_error cell 2 = Some z0))
         (blank_image X Y z0 s_ch).
Proof.
  unfold blank_image.
  apply Forall_map, Forall_forall. intros y _.
  apply Forall_map, Forall_forall. intros x _. reflexivity.
Qed.

(** C4, amended.  When the axis ranges are intervals, every X and Y
    coordinate of the XY grid that [_initialize_xy_refocus_image] generates
    (the forward and return X sequences, the Y sequence, and the X and Y
    targets of every image cell) lies within the range of its axis, and so
    does every Z coordinate of the line that [_initialize_z_refocus_image]
    generates: the window edges are clipped before the linear spacing is
    built.  The Z target of every cell of the XY grid is the Z estimate as
    it is. *)
Theorem scan_coordinates_within_range (dev : ConfocalScanner) (s : State) :
  fst (x_range (cfg s)) <= snd (x_range (cfg s)) ->
  fst (y_range (cfg s)) <= snd (y_range (cfg s)) ->
  fst (z_range (cfg s)) <= snd (z_range (cfg s)) ->
  (xy_template_readable s ->
   exists s',
     _initialize_xy_refocus_image dev s = Some (tt, s') /\
     Forall (in_range (x_range (cfg s))) (_X_values s') /\
     Forall (in_range (y_range (cfg s))) (_Y_values s') /\
     Forall (in_range (x_range (cfg s))) (_return_X_values s') /\
     Forall (Forall (cell_xy_in_range (x_range (cfg s)) (y_range (cfg s))))
            (xy_refocus_image s') /\
     Forall (Forall (fun cell => nth_error cell 2 = Some (optim_pos_z s)))
            (xy_refocus_image s')) /\
  (z_template_readable s ->
   exists s',
     _initialize_z_refocus_image dev s = Some (tt, s') /\
     Forall (in_range (z_range (cfg s))) (_zimage_Z_values s')).
Proof.
  intros Hx Hy Hz. split; intros Hr.
  - destruct (initialize_xy_returns dev s Hr) as [s' Hs'].
    exists s'. split; [exact Hs'|].
    destruct (initialize_xy_axes dev s s' Hs') as (EX & EY & ER & EI).
    assert (HX : Forall (in_range (x_range (cfg s))) (_X_values s')).
    { rewrite EX. apply linspace_in_range; apply clip_in_range; exact Hx. }
    assert (HY : Forall (in_range (y_range (cfg s))) (_Y_values s')).
    { rewrite EY. apply linspace_in_range; apply clip_in_range; exact Hy. }
    repeat split; try assumption.
    + rewrite ER. apply linspace_in_range; apply clip_in_range; exact Hx.
    + rewrite EI. apply blank_image_in_range; assumption.
    + rewrite EI. apply blank_image_z.
  - destruct (initialize_z_returns dev s Hr) as [s' Hs'].
    exists s'. split; [exact Hs'|].
    rewrite (initialize_z_axis dev s s' Hs').
    apply linspace_in_range; apply clip_in_range; exact Hz.
Qed.

Lemma scan_coordinates_within_range_witness :
  (exists s',
     _initialize_xy_refocus_image steady_scanner
       (example_state (example_settings 2 2 false) ["XY"; "Z"]) = Some (tt, s') /\
     Forall (in_range (-10, 10)) (_X_values s') /\
     Forall (in_range (-10, 10)) (_Y_values s') /\
     Forall (in_range (-10, 10)) (_return_X_values s')) /\
  (exists s',
     _initialize_z_refocus_image steady_scanner
       (example_state (example_settings 2 2 false) ["XY"; "Z"]) = Some (tt, s') /\
     Forall (in_range (-10, 10)) (_zimage_Z_values s')).
Proof.
  destruct (scan_coordinates_within_range steady_scanner
              (example_state (example_settings 2 2 false) ["XY"; "Z"]))
    as [Hxy Hz]; try discriminate.
  split.
  - destruct Hxy as (s' & E & HX & HY & HR & _); [right; discriminate|].
    exists s'. repeat split; assumption.
  - destruct Hz as (s' & E & HZ); [right; discriminate|].
    exists s'. split; assumption.
Defined.

(** C4 as stated fails on the Z coordinate of the XY grid: with the Z
    estimate at 30 and a Z range from -10 to 10, every cell of the grid has
    the Z target 30, and the first line slot sends it to the scanner. *)
Lemma xy_grid_z_target_out_of_range :
  ~ (forall (dev : ConfocalScanner) (s s' : State),
        fst (x_range (cfg s)) <= snd (x_range (cfg s)) ->
        fst (y_range (cfg s)) <= snd (y_range (cfg s)) ->
        fst (z_range (cfg s)) <= snd (z_range (cfg s)) ->
        _initialize_xy_refocus_image dev s = Some (tt, s') ->
        Forall (Forall (cell_in_range (x_range (cfg s)) (y_range (cfg s))
                                      (z_range (cfg s))))
               (xy_refocus_image s')) /\
  (exists s1 s2 move line back,
      _initialize_xy_refocus_image steady_scanner high_state = Some (tt, s1) /\
      _refocus_xy_line steady_scanner s1 = Some (tt, s2) /\
      scan_log s2 = [move; line; back] /\
      nth_error line 2 = Some [30; 30] /\
      ~ in_range (z_range (cfg high_state)) 30).
Proof.
  split.
  - intros H.
    assert (F : Forall (Forall (cell_in_range (x_range (cfg high_state))
                                              (y_range (cfg high_state))
                                              (z_range (cfg high_state))))
                       (xy_refocus_image
                          (state_after (_initialize_xy_refocus_image steady_scanner)
                             high_state))).
    { apply (H steady_scanner); try discriminate. vm_compute. reflexivity. }
    vm_compute in F.
    inversion F as [|row rows Hrow _].
    inversion Hrow as [|cell cells Hcell _].
    destruct Hcell as (_ & _ & _ & Hz). apply Hz. reflexivity.
  - eexists _, _, _, _, _.
    split; [vm_compute; reflexivity|].
    split; [vm_compute; reflexivity|].
    split; [vm_compute; reflexivity|].
    split; [reflexivity|].
    intros [_ Hz]. vm_compute in Hz. apply Hz. reflexivity.
Qed.

(** The samples of [np.linspace] for two samples or more: the start, the
    inner samples, the stop. *)
Lemma linspace_endpoints (a b : Q) (n : nat) :
  (2 <= n)%nat ->
  exists inner,
    length inner = (n - 2)%nat /\
    Forall2 Qeq (Np.linspace a b n) (a :: inner ++ [b]).
Proof.
  intros Hn. unfold Np.linspace.
  destruct n as [|[|n]]; try lia. clear Hn.
  set (f := fun i : nat => _).
  replace (seq 0 (S (S n))) with (0%nat :: seq 1 n ++ [S n])
    by (change (seq 0 (S (S n))) with (0%nat :: seq 1 (S n));
        rewrite (seq_S n 1); reflexivity).
  cbn [map]. rewrite map_app. cbn [map].
  exists (map f (seq 1 n)). split.
  - rewrite length_map, length_seq. lia.
  - constructor.
    + unfold f. cbn [Nat.ltb Nat.leb Nat.sub Nat.eqb andb].
      unfold Qnat at 1. simpl. ring.
    + apply Forall2_app.
      * clear. induction (map f (seq 1 n)); constructor; [reflexivity | assumption].
      * constructor; [|constructor].
        unfold f. replace (S (S n) - 1)%nat with (S n) by lia.
        rewrite Nat.eqb_refl. reflexivity.
Qed.

(** C8, amended.  The return X sequence of every XY grid has the length of
    the forward X sequence, the resolution.  With a resolution of two or
    more the forward sequence starts at the lower edge of the window and
    ends at the upper edge, and the return sequence starts at the upper edge
    and ends at the lower edge, each with as many samples between; with a
    resolution of one the forward sequence is the lower edge alone and the
    return sequence the upper edge alone. *)
Theorem return_sweep_swaps_endpoints (dev : ConfocalScanner) (s : State) :
  xy_template_readable s ->
  let c := cfg s in
  let half := 0.5 * refocus_XY_size c in
  let xmin := Np.clip (optim_pos_x s - half) (fst (x_range c)) (snd (x_range c)) in
  let xmax := Np.clip (optim_pos_x s + half) (fst (x_range c)) (snd (x_range c)) in
  exists s',
    _initialize_xy_refocus_image dev s = Some (tt, s') /\
    length (_X_values s') = optimizer_XY_res c /\
    length (_return_X_values s') = length (_X_values s') /\
    ((2 <= optimizer_XY_res c)%nat ->
     exists inner inner',
       length inner = length inner' /\
       Forall2 Qeq (_X_values s') (xmin :: inner ++ [xmax]) /\
       Forall2 Qeq (_return_X_values s') (xmax :: inner' ++ [xmin])) /\
    (optimizer_XY_res c = 1%nat ->
     Forall2 Qeq (_X_values s') [xmin] /\
     Forall2 Qeq (_return_X_values s') [xmax]).
Proof.
  intros Hr c half xmin xmax.
  destruct (initialize_xy_returns dev s Hr) as [s' Hs'].
  exists s'. split; [exact Hs'|].
  destruct (initialize_xy_axes dev s s' Hs') as (EX & _ & ER & _).
  fold c half xmin xmax in EX, ER.
  rewrite EX, ER, !length_linspace.
  split; [reflexivity|]. split; [reflexivity|]. split.
  - intros Hres.
    destruct (linspace_endpoints xmin xmax _ Hres) as (inner & L & F).
    destruct (linspace_endpoints xmax xmin _ Hres) as (inner' & L' & F').
    exists inner, inner'. split; [congruence|]. split; assumption.
  - intros ->. unfold Np.linspace. simpl. split; repeat constructor.
    + unfold Qnat. simpl. ring.
    + unfold Qnat. simpl. ring.
Qed.

Lemma return_sweep_swaps_endpoints_witness :
  exists s',
    _initialize_xy_refocus_image steady_scanner
      (example_state (example_settings 2 2 false) ["XY"; "Z"]) = Some (tt, s') /\
    Forall2 Qeq (_X_values s') [-1; 1] /\
    Forall2 Qeq (_return_X_values s') [1; -1].
Proof.
  destruct (return_sweep_swaps_endpoints steady_scanner
              (example_state (example_settings 2 2 false) ["XY"; "Z"]))
    as (s' & E & LX & LR & H2 & _).
  - right. discriminate.
  - destruct H2 as (inner & inner' & L & FX & FR); [simpl; lia|].
    exists s'. split; [exact E|].
    assert (Hi : inner = []).
    { apply Forall2_length in FX. rewrite LX in FX. simpl in FX.
      rewrite length_app in FX. simpl in FX.
      destruct inner; [reflexivity | simpl in FX; lia]. }
    assert (Hi' : inner' = []).
    { subst inner. destruct inner'; [reflexivity | discriminate L]. }
    subst inner inner'. simpl in FX, FR.
    split.
    + eapply Forall2_Qeq_trans; [exact FX|]. repeat constructor; reflexivity.
    + eapply Forall2_Qeq_trans; [exact FR|]. repeat constructor; reflexivity.
Defined.

(** C8 as stated fails.  At resolution 1, around the origin with a window of
    size 2, the forward sequence is the lower edge [-1] alone and the return
    sequence the upper edge [1] alone.  At resolution 4, in the binary64
    arithmetic of the source, the two inner samples of the return sequence
    differ from those of the reversed forward sequence by the rounding. *)
Lemma return_sweep_not_reversed :
  ~ (forall (dev : ConfocalScanner) (s s' : State),
        _initialize_xy_refocus_image dev s = Some (tt, s') ->
        Forall2 Qeq (_return_X_values s') (rev (_X_values s'))) /\
  Binary64.eqb_each
    (Binary64.return_X_values
       (Binary64.of_nat 0) (Binary64.of_nat 2)
       (PrimFloat.opp (Binary64.of_nat 10), Binary64.of_nat 10) 4)
    (rev (Binary64.X_values
            (Binary64.of_nat 0) (Binary64.of_nat 2)
            (PrimFloat.opp (Binary64.of_nat 10), Binary64.of_nat 10) 4))
  = [true; false; false; true].
Proof.
  split.
  - intros H.
    destruct (_initialize_xy_refocus_image steady_scanner
                (example_state (example_settings 1 2 false) ["XY"; "Z"]))
      as [[[] s']|] eqn:E; [|discriminate E].
    specialize (H _ _ _ E).
    vm_compute in E. inversion E; subst; clear E.
    vm_compute in H. inversion H as [|? ? ? ? Hq _]; subst.
    discriminate Hq.
  - vm_compute. reflexivity.
Qed.

(** ** The bounds validation *)

(** The estimators only add to the log of fit calls. *)
Lemma xy_estimate_frame (fit : FitLogic) (sp : Scipy) (s s1 : State)
      (r : Fit2D.result) :
  xy_estimate fit sp s = Some (r, s1) -> exists l, s1 = set_fit_log l s.
Proof.
  unfold xy_estimate, xy_template_fit. unfold_monad. simpl_state. intros H.
  run_in H; inversion H; subst; clear H; eexists; reflexivity.
Qed.

Lemma z_estimate_frame (fit : FitLogic) (sp : Scipy) (s s1 : State)
      (r : Fit1D.result) :
  z_estimate fit sp s = Some (r, s1) -> exists l, s1 = set_fit_log l s.
Proof.
  unfold z_estimate, z_template_fit. unfold_monad. simpl_state. intros H.
  run_in H; inversion H; subst; clear H; eexists; reflexivity.
Qed.


(** C9.  In the XY step, when the fit succeeded, its shift on the checked
    axis (X) is within the maximum offset, and its center lies outside the
    X range or outside the Y range, the position estimate and the
    uncertainties of X and Y are left as they were. *)
Theorem xy_fit_out_of_range_keeps_estimate
        (fit : FitLogic) (sp : Scipy) (s s1 : State) (r : Fit2D.result) :
  _caller_tag s <> "xy_template_image" ->
  xy_estimate fit sp s = Some (r, s1) ->
  Fit2D.success r = true ->
  Qabs (_initial_pos_x s - Fit2D.center_x r) < _max_offset (cfg s) ->
  ~ in_range (x_range (cfg s)) (Fit2D.center_x r) \/
  ~ in_range (y_range (cfg s)) (Fit2D.center_y r) ->
  exists s',
    _set_optimized_xy_from_fit fit sp s = Some (tt, s') /\
    optim_pos_x s' = optim_pos_x s /\ optim_pos_y s' = optim_pos_y s /\
    optim_sigma_x s' = optim_sigma_x s /\ optim_sigma_y s' = optim_sigma_y s.
Proof.
  intros Htag Hest Hok Hoff Hout.
  apply String.eqb_neq in Htag.
  destruct (xy_estimate_frame _ _ _ _ _ Hest) as [l ->].
  unfold _set_optimized_xy_from_fit.
  unfold bind at 1. unfold get at 1. rewrite Htag.
  unfold bind at 1. rewrite Hest.
  unfold xy_accept. unfold_monad. simpl_state.
  rewrite Hok. cbn [negb andb].
  apply Qltb_lt in Hoff. rewrite Hoff. cbn [negb andb].
  destruct Hout as [Hx | Hy].
  - rewrite (out_of_range_test _ _ Hx).
    eexists; split; [reflexivity|]. simpl_state. auto.
  - rewrite (out_of_range_test _ _ Hy).
    destruct (_ && _); eexists; (split; [reflexivity|]); simpl_state; auto.
Qed.

Lemma xy_fit_out_of_range_keeps_estimate_witness :
  exists s',
    _set_optimized_xy_from_fit (example_fit true 1 50 0) example_scipy
      (set_optim_pos_x 0.5 (example_state (example_settings 2 2 false) ["XY"]))
    = Some (tt, s') /\
    optim_pos_x s' = 0.5 /\ optim_pos_y s' = 0 /\
    optim_sigma_x s' = 0 /\ optim_sigma_y s' = 0.
Proof.
  apply (xy_fit_out_of_range_keeps_estimate
           (example_fit true 1 50 0) example_scipy
           (set_optim_pos_x 0.5 (example_state (example_settings 2 2 false) ["XY"]))
           (set_fit_log [TwoDGaussianFit]
              (set_optim_pos_x 0.5 (example_state (example_settings 2 2 false) ["XY"])))
           {| Fit2D.success := true; Fit2D.center_x := 1; Fit2D.center_y := 50;
              Fit2D.sigma_x := 0.25; Fit2D.sigma_y := 0.25 |}).
  - discriminate.
  - reflexivity.
  - reflexivity.
  - reflexivity.
  - right. intros [_ H]. apply H. reflexivity.
Defined.








(** C1 on the code.  A successful XY fit whose shift is 1 in X and 5 in Y,
    with a maximum offset of 3, is accepted: the check of the offset reads
    the X shift twice and the Y shift never, so the estimate moves to the
    fitted center and the run reports it. *)
Theorem xy_offset_check_ignores_y_shift :
  _max_offset (example_settings 2 2 false)
  <= Qabs (_initial_pos_y (example_state (example_settings 2 2 false) ["XY"])
           - Fit2D.center_y off_axis_result) /\
  option_map (fun p => (optim_pos_x (snd p), optim_pos_y (snd p),
                        optim_sigma_x (snd p), optim_sigma_y (snd p)))
             (xy_accept off_axis_result
                (example_state (example_settings 2 2 false) ["XY"]))
  = Some (1, 5, 0.25, 0.25) /\
  option_map (fun s' => finished (emitted s'))
             (final_state
                (refocus steady_scanner (example_fit true 1 5 0) example_scipy 10
                   (Some [0; 0; 0]) "user" "logic"
                   (example_state (example_settings 2 2 false) ["XY"])))
  = Some [("user", [1; 5; 0])].
Proof.
  split; [discriminate|]. split; vm_compute; reflexivity.
Qed.

(** C2 on the code.  A successful Z fit 5 above the initial position, with
    a maximum offset of 3, a Z window of size 2 and the range [-10, 10],
    changes nothing: the estimate stays where an earlier step left it (0.5,
    with its uncertainty 0.125) instead of moving to the upper edge 1 of the
    window, and a run from the origin reports the origin. *)
Theorem z_offset_rejection_keeps_estimate :
  _max_offset (cfg refined_z_state)
  <= Qabs (_initial_pos_z refined_z_state - Fit1D.center far_z_result) /\
  option_map (fun p => (optim_pos_z (snd p), optim_sigma_z (snd p)))
             (z_accept far_z_result refined_z_state)
  = Some (0.5, 0.125) /\
  option_map (fun p => (optim_pos_z (snd p), optim_sigma_z (snd p)))
             (do_z_optimization steady_scanner (example_fit true 0 0 5)
                example_scipy refined_z_state)
  = Some (0.5, 0.125) /\
  option_map (fun s' => finished (emitted s'))
             (final_state
                (refocus steady_scanner (example_fit true 0 0 5) example_scipy 10
                   (Some [0; 0; 0]) "user" "logic"
                   (example_state (example_settings 2 2 false) ["Z"])))
  = Some [("user", [0; 0; 0])].
Proof.
  split; [discriminate|]. repeat split; vm_compute; reflexivity.
Qed.

(** ** The line-scan driver *)

(** C6 on the code.  With surface subtraction, a background Z line whose
    second sample is the error sentinel is not detected, because only the
    first sample of the background is compared with the sentinel: no stop
    is requested and the line data becomes the difference, sentinel
    included.  The same counts in the primary line request the stop. *)
Theorem background_sentinel_beyond_first_sample_is_missed :
  Np.any_eq (-1) (scan_line (example_scanner background_sentinel) 3 []) = true /\
  option_map (fun p => (stopRequested (snd p), queue (snd p),
                        z_refocus_line (snd p)))
             (_scan_z_line (example_scanner background_sentinel) z_scan_state)
  = Some (false, [], [[4]; [10]]) /\
  option_map (fun p => (stopRequested (snd p), queue (snd p)))
             (_scan_z_line (example_scanner primary_sentinel) z_scan_state)
  = Some (true, [_sigScanNextXyLine]).
Proof.
  repeat split; vm_compute; reflexivity.
Qed.

(** C3 on the code.  In a run of the sequence ['XY'] on a 2 x 2 grid whose
    first forward line (scan 1) reports the error sentinel, the stop request
    and the failure path each queue the line slot.  The first of the two
    finishes the run; the second finds the stop request cleared and scans
    the image all the same (scans 2 to 6), the fit is called, and the end of
    the sequence finishes the run a second time: seven line scans are made
    in all and the scanner and its clock are closed twice. *)
Theorem scan_failure_scans_on_and_releases_twice :
  Np.any_eq (-1) (scan_line (example_scanner fail_once) 1 []) = true /\
  option_map (fun s' => (length (scan_log s'), fit_log s',
                         closed_scanner s', closed_clock s'))
             (final_state
                (refocus (example_scanner fail_once) (example_fit true 1 1 0)
                   example_scipy 10 (Some [0; 0; 0]) "user" "logic"
                   (example_state (example_settings 2 2 false) ["XY"])))
  = Some (7%nat, [TwoDGaussianFit], 2%nat, 2%nat).
Proof.
  split; vm_compute; reflexivity.
Qed.

(** ** The step sequencer *)
































(** * Further properties *)

(** ** Validation of the sequence *)

Lemma known_step_test (l : list string) :
  existsb (fun step => negb ((step =? "XY")%string || (step =? "Z")%string)) l = false
  <-> Forall known_step l.
Proof.
  induction l as [|a l IH]; simpl.
  - split; [constructor | reflexivity].
  - rewrite orb_false_iff, IH, negb_false_iff, orb_true_iff, !String.eqb_eq.
    split.
    + intros [H1 H2]. constructor; assumption.
    + intros H. inversion H; subst. split; assumption.
Qed.

(** X1.  [check_optimization_sequence] always returns and leaves a sequence
    of known steps: a sequence of XY and Z steps is kept as it is, whatever
    its length and order, and any other sequence is replaced by XY, Z. *)
Theorem check_optimization_sequence_leaves_known_steps (s : State) :
  exists s',
    check_optimization_sequence s = Some (tt, s') /\
    Forall known_step (optimization_sequence s') /\
    (Forall known_step (optimization_sequence s) -> s' = s) /\
    (~ Forall known_step (optimization_sequence s) ->
     s' = set_optimization_sequence ["XY"; "Z"] s).
Proof.
  unfold check_optimization_sequence. unfold_monad.
  destruct (existsb _ (optimization_sequence s)) eqn:E.
  - eexists. split; [reflexivity|]. simpl_state. split; [|split].
    + constructor; [left; reflexivity|].
      constructor; [right; reflexivity | constructor].
    + intros H. apply known_step_test in H. congruence.
    + reflexivity.
  - eexists. split; [reflexivity|]. apply known_step_test in E.
    split; [exact E|]. split; [reflexivity|]. intros H. contradiction.
Qed.

Lemma check_optimization_sequence_leaves_known_steps_witness :
  optimization_sequence
    (state_after check_optimization_sequence
       (example_state (example_settings 2 2 false) ["Z"; "XY"; "Z"]))
  = ["Z"; "XY"; "Z"] /\
  optimization_sequence
    (state_after check_optimization_sequence
       (example_state (example_settings 2 2 false) ["Z"; "A"]))
  = ["XY"; "Z"].
Proof.
  split.
  - destruct (check_optimization_sequence_leaves_known_steps
                (example_state (example_settings 2 2 false) ["Z"; "XY"; "Z"]))
      as (s' & E & _ & Hkeep & _).
    unfold state_after. rewrite E. rewrite Hkeep; [reflexivity|].
    constructor; [right; reflexivity|].
    constructor; [left; reflexivity|].
    constructor; [right; reflexivity | constructor].
  - destruct (check_optimization_sequence_leaves_known_steps
                (example_state (example_settings 2 2 false) ["Z"; "A"]))
      as (s' & E & _ & _ & Hrepl).
    unfold state_after. rewrite E. rewrite Hrepl; [reflexivity|].
    intros H. inversion H as [|? ? _ H2]; subst.
    inversion H2 as [|? ? [H3 | H3] _]; discriminate H3.
Defined.

(** ** Start and end of a run *)

(** The initial position assignment at the head of [start_refocus]. *)
Lemma start_refocus_position (dev : ConfocalScanner) (ip : option (list Q))
      (s : State) (x y z : Q) :
  starting_position dev ip s = Some (x, y, z) ->
  (match ip with
   | Some (x :: y :: z :: _) =>
       put (set_initial_pos_x x);;
       put (set_initial_pos_y y);;
       put (set_initial_pos_z z)
   | Some _ => ret tt
   | None =>
       scpos <- get (fun s => get_scanner_position dev (length (scan_log s)));;
       match firstn 3 scpos with
       | [x; y; z] =>
           put (set_initial_pos_x x);;
           put (set_initial_pos_y y);;
           put (set_initial_pos_z z)
       | _ => try_ None
       end
   end) s
  = Some (tt, set_initial_pos_z z (set_initial_pos_y y (set_initial_pos_x x s))).
Proof.
  intros Hpos. unfold starting_position in Hpos. unfold_monad.
  destruct ip as [[|a [|b [|c l]]]|].
  - inversion Hpos; subst. destruct s; reflexivity.
  - inversion Hpos; subst. destruct s; reflexivity.
  - inversion Hpos; subst. destruct s; reflexivity.
  - inversion Hpos; subst. reflexivity.
  - destruct (firstn 3 _) as [|a [|b [|c [|]]]]; try discriminate.
    inversion Hpos; subst. reflexivity.
Qed.

(** X2.  When the scanner clock cannot be set up, or the scanner cannot and
    its clock can be closed again, [start_refocus] ends the run at once: it
    reports the starting position (less the cursor shift of a template fit)
    as the result, queues no step, scans nothing, and leaves the module
    unlocked; the clock is closed only in the second case. *)
Theorem start_refocus_without_scanner
        (dev : ConfocalScanner) (ip : option (list Q)) (ctag tag : string)
        (s : State) (x y z : Q) :
  starting_position dev ip s = Some (x, y, z) ->
  cursor_ready (cfg s) ->
  (set_up_scanner_clock dev < 0)%Z \/
  ((set_up_scanner dev < 0)%Z /\ close_scanner_clock dev (closed_clock s) <> None) ->
  exists s' pos,
    start_refocus dev ip ctag tag s = Some (tt, s') /\
    emitted s' = emitted s ++ [sigRefocusFinished ctag pos] /\
    Forall2 Qeq pos [x - fst (fst (cursor_offset (cfg s)));
                     y - snd (fst (cursor_offset (cfg s)));
                     z - snd (cursor_offset (cfg s)); 0] /\
    queue s' = queue s /\
    scan_log s' = scan_log s /\
    closed_scanner s' = closed_scanner s /\
    closed_clock s' = (if (set_up_scanner_clock dev <? 0)%Z
                       then closed_clock s else S (closed_clock s)) /\
    locked s' = false.
Proof.
  intros Hpos Hcur Hfail. unfold cursor_ready in Hcur.
  unfold start_refocus, check_optimization_sequence, start_scanner.
  destruct (template_cursor (cfg s)) as [|c0 [|c1 [|c2 tc]]] eqn:Ecur;
    try (simpl in Hcur; lia).
  unfold bind at 1. rewrite (start_refocus_position dev ip s x y z Hpos).
  unfold_monad. simpl_state. rewrite Ecur. cbn [nth_error].
  unfold cursor_offset. rewrite Ecur. cbn [nth fst snd].
  destruct (set_up_scanner_clock dev <? 0)%Z eqn:Eclock.
  - destruct (in_xy_template _), (in_z_template _), (existsb _ _);
      simpl_state;
      (eexists; eexists; split; [reflexivity|]); simpl_state;
      repeat split; try reflexivity; repeat constructor; ring.
  - destruct Hfail as [Hc | [Hs Hcl]]; [apply Z.ltb_lt in Hc; congruence|].
    apply Z.ltb_lt in Hs.
    destruct (close_scanner_clock dev (closed_clock s)) as [rv|] eqn:Ecl;
      [|congruence].
    destruct (in_xy_template _), (in_z_template _), (existsb _ _);
      simpl_state; rewrite Hs; simpl_state; rewrite Ecl;
      (eexists; eexists; split; [reflexivity|]); simpl_state;
      repeat split; try reflexivity; repeat constructor; ring.
Qed.


Lemma start_refocus_without_scanner_witness :
  exists s' pos,
    start_refocus clockless_scanner (Some [1; 2; 3]) "user" "logic"
      (example_state (example_settings 2 2 false) ["XY"]) = Some (tt, s') /\
    emitted s' = [sigRefocusFinished "user" pos] /\
    queue s' = [] /\ locked s' = false.
Proof.
  destruct (start_refocus_without_scanner
              clockless_scanner (Some [1; 2; 3]) "user" "logic"
              (example_state (example_settings 2 2 false) ["XY"]) 1 2 3)
    as (s' & pos & E & Hem & _ & Hq & _ & _ & _ & Hl).
  - reflexivity.
  - unfold cursor_ready. simpl. lia.
  - left. reflexivity.
  - exists s', pos. repeat split; assumption.
Defined.


(** ** What a step does with the fit *)





(** ** The slot of an XY line *)

(** A sequence that returns went through its first part. *)
Lemma bind_inv {A B : Type} (m : M A) (k : A -> M B) (s : State) (b : B) (s' : State) :
  bind m k s = Some (b, s') ->
  exists a s1, m s = Some (a, s1) /\ k a s1 = Some (b, s').
Proof.
  unfold bind. destruct (m s) as [[a s1]|]; [|discriminate].
  intros H. exists a, s1. split; [reflexivity | exact H].
Qed.

Lemma finish_refocus_frame (dev : ConfocalScanner) (s s' : State) :
  finish_refocus dev s = Some (tt, s') ->
  cfg s' = cfg s /\ _caller_tag s' = _caller_tag s /\
  optimization_sequence s' = optimization_sequence s /\
  stopRequested s' = stopRequested s /\
  _xy_scan_line_count s' = _xy_scan_line_count s /\
  _optimization_step s' = _optimization_step s /\
  xy_refocus_image s' = xy_refocus_image s /\
  xy_template_image s' = xy_template_image s /\
  z_refocus_line s' = z_refocus_line s /\
  z_template_data s' = z_template_data s /\
  zimage_template_Z_values s' = zimage_template_Z_values s /\
  queue s' = queue s /\ scan_log s' = scan_log s /\ fit_log s' = fit_log s /\
  _X_values s' = _X_values s /\ _Y_values s' = _Y_values s /\
  _return_X_values s' = _return_X_values s /\
  _zimage_Z_values s' = _zimage_Z_values s.
Proof.
  unfold finish_refocus, kill_scanner. unfold_monad. simpl_state. intros H.
  run_in H; inversion H; subst; clear H; simpl_state; repeat split; reflexivity.
Qed.

Lemma move_to_start_pos_frame (dev : ConfocalScanner) (pos : Q * Q * Q)
      (s s' : State) (status : Z) :
  _move_to_start_pos dev pos s = Some (status, s') ->
  exists line,
    s' = set_scan_log (scan_log s ++ [line]) s /\
    (status = (-1)%Z /\ Np.any_eq (-1) (scan_line dev (length (scan_log s)) line) = true
     \/ status = 0%Z /\ Np.any_eq (-1) (scan_line dev (length (scan_log s)) line) = false).
Proof.
  destruct pos as [[x y] z].
  unfold _move_to_start_pos, device_scan_line. unfold_monad. simpl_state. intros H.
  run_in H; inversion H; subst; clear H; eexists; (split; [reflexivity|]); auto.
Qed.

Ltac use_frames :=
  repeat match goal with
    | H : finish_refocus _ _ = Some (?u, _) |- _ =>
        destruct u; apply finish_refocus_frame in H;
        destruct H as (? & ? & ? & ? & ? & ? & ? & ? & ? & ? & ? & ? & ? & ? & ? & ? & ? & ?)
    | H : _move_to_start_pos _ _ _ = Some _ |- _ =>
        apply move_to_start_pos_frame in H;
        destruct H as (? & -> & [[-> ?] | [-> ?]])
    end.

(** X6.  Without a stop request, the slot of an XY line either aborts or
    stores the line.  It aborts when a scan answers the sentinel -1: the
    last scan it made is that one, the stop request is set, the line signal
    is queued twice, and the images, the line counter and the public signals
    are as before.  Otherwise it made the forward and the return scan last,
    wrote the counts of the forward scan into the row of the line counter,
    advanced the counter, published the image update and queued the next
    line, or the fit after the last line. *)
Theorem line_slot_stores_or_aborts (dev : ConfocalScanner) (s s' : State) :
  stopRequested s = false ->
  _refocus_xy_line dev s = Some (tt, s') ->
  (stopRequested s' = true /\
   xy_refocus_image s' = xy_refocus_image s /\
   xy_template_image s' = xy_template_image s /\
   _xy_scan_line_count s' = _xy_scan_line_count s /\
   emitted s' = emitted s /\
   closed_scanner s' = closed_scanner s /\
   queue s' = queue s ++ [_sigScanNextXyLine; _sigScanNextXyLine] /\
   exists prefix line,
     scan_log s' = prefix ++ [line] /\
     Np.any_eq (-1) (scan_line dev (length prefix) line) = true)
  \/
  (stopRequested s' = false /\
   _xy_scan_line_count s' = S (_xy_scan_line_count s) /\
   emitted s' = emitted s ++ [sigImageUpdated] /\
   closed_scanner s' = closed_scanner s /\
   queue s' = queue s ++ [if (S (_xy_scan_line_count s) <? length (_Y_values s))%nat
                          then _sigScanNextXyLine
                          else _sigCompletedXyOptimizerScan] /\
   exists prefix line back,
     scan_log s' = prefix ++ [line; back] /\
     Np.any_eq (-1) (scan_line dev (length prefix) line) = false /\
     assign_line (get_scanner_count_channels dev) (_xy_scan_line_count s)
                 (scan_line dev (length prefix) line) (xy_refocus_image s)
     = Some (xy_refocus_image s')).
Proof.
  intros Hstop H.
  unfold _refocus_xy_line, stop_refocus, device_scan_line in H.
  unfold_monad. simpl_state. rewrite Hstop in H.
  run_in H; inversion H; subst; clear H; use_frames; simpl_state;
    try discriminate;
    first
      [ left; repeat (split; [reflexivity|]);
        split; [exact (eq_sym (app_assoc _ [_] [_]))|];
        eexists _, _; split; [reflexivity | eassumption]
      | right;
        match goal with
        | E : (S _ <? _)%nat = _ |- _ => rewrite E
        end;
        repeat (split; [first [reflexivity | assumption]|]);
        eexists _, _, _;
        split; [exact (eq_sym (app_assoc _ [_] [_]))|];
        split; eassumption ].
Qed.

Lemma line_slot_stores_or_aborts_witness :
  _xy_scan_line_count (state_after (_refocus_xy_line steady_scanner) xy_scan_state)
  = 1%nat /\
  queue (state_after (_refocus_xy_line steady_scanner) xy_scan_state)
  = [_sigScanNextXyLine].
Proof.
  destruct (line_slot_stores_or_aborts steady_scanner xy_scan_state
              (state_after (_refocus_xy_line steady_scanner) xy_scan_state))
    as [H | H].
  - vm_compute. reflexivity.
  - vm_compute. reflexivity.
  - destruct H as [Hstop _]. vm_compute in Hstop. discriminate Hstop.
  - destruct H as (_ & Hk & _ & _ & Hq & _).
    vm_compute in Hk. vm_compute in Hq.
    split; [vm_compute; exact Hk | vm_compute; exact Hq].
Defined.

Lemma set_row_counts_keeps_coordinates (s_ch : nat) (counts : Counts)
      (row row' : list (list Q)) :
  set_row_counts s_ch counts row = Some row' ->
  map (firstn 3) row' = map (firstn 3) row.
Proof.
  unfold set_row_counts.
  destruct (length counts =? length row)%nat eqn:El; [|discriminate].
  destruct (forallb _ counts); [|discriminate].
  destruct (forallb _ row) eqn:Ec; [|discriminate].
  cbn [andb]. intros H. injection H as <-.
  apply Nat.eqb_eq in El. rewrite forallb_forall in Ec.
  revert counts El. induction row as [|cell row IH]; intros [|c counts] El;
    simpl in El; try discriminate; [reflexivity|].
  cbn [combine map fst snd]. f_equal.
  - assert (Hc : (3 + s_ch <=? length cell)%nat = true) by (apply Ec; left; reflexivity).
    apply Nat.leb_le in Hc.
    destruct cell as [|a [|b [|c' cell]]]; simpl in Hc; try lia. reflexivity.
  - apply IH; [|lia]. intros x Hx. apply Ec. right. exact Hx.
Qed.

Lemma map_update_nth {A B : Type} (f : A -> B) (k : nat) (v : A) (l : list A) :
  map f (update_nth k v l) = update_nth k (f v) (map f l).
Proof.
  revert k. induction l as [|x l IH]; intros [|k]; simpl; auto.
  rewrite IH. reflexivity.
Qed.

Lemma update_nth_same {A : Type} (k : nat) (v : A) (l : list A) :
  nth_error l k = Some v -> update_nth k v l = l.
Proof.
  revert k. induction l as [|x l IH]; intros [|k] H; simpl in *; try discriminate.
  - inversion H; reflexivity.
  - rewrite IH by exact H. reflexivity.
Qed.

Lemma assign_line_keeps_coordinates (s_ch k : nat) (counts : Counts)
      (img img' : Image) :
  assign_line s_ch k counts img = Some img' ->
  coordinates img' = coordinates img.
Proof.
  unfold assign_line, coordinates.
  destruct (nth_error img k) as [row|] eqn:Er; [|discriminate].
  destruct (set_row_counts s_ch counts row) as [row'|] eqn:Es; [|discriminate].
  intros H. inversion H; subst; clear H.
  rewrite map_update_nth.
  rewrite (set_row_counts_keeps_coordinates _ _ _ _ Es).
  apply update_nth_same. apply map_nth_error. exact Er.
Qed.

(** X7.  Whatever the scanner answers, the slot of an XY line changes no
    target position: the coordinates of every cell of the image and of the
    template, and the X, Y and return axes, are as before. *)
Theorem line_slot_keeps_coordinates (dev : ConfocalScanner) (s s' : State) :
  _refocus_xy_line dev s = Some (tt, s') ->
  coordinates (xy_refocus_image s') = coordinates (xy_refocus_image s) /\
  coordinates (xy_template_image s') = coordinates (xy_template_image s) /\
  _X_values s' = _X_values s /\ _Y_values s' = _Y_values s /\
  _return_X_values s' = _return_X_values s.
Proof.
  intros H.
  unfold _refocus_xy_line, stop_refocus, device_scan_line in H.
  unfold_monad. simpl_state.
  run_in H; inversion H; subst; clear H; use_frames; simpl_state;
    repeat match goal with
      | E : assign_line _ _ _ _ = Some _ |- _ =>
          apply assign_line_keeps_coordinates in E
      end;
    repeat split; congruence.
Qed.

Lemma line_slot_keeps_coordinates_witness :
  coordinates
    (xy_refocus_image (state_after (_refocus_xy_line steady_scanner) xy_scan_state))
  = coordinates (xy_refocus_image xy_scan_state).
Proof.
  destruct (line_slot_keeps_coordinates steady_scanner xy_scan_state
              (state_after (_refocus_xy_line steady_scanner) xy_scan_state))
    as [H _].
  - vm_compute. reflexivity.
  - exact H.
Defined.

(** ** What a run keeps *)

Lemma keeps_templates_refl (s : State) : keeps_templates s s.
Proof. constructor; auto. Qed.

Lemma keeps_templates_trans (s s1 s2 : State) :
  keeps_templates s s1 -> keeps_templates s1 s2 -> keeps_templates s s2.
Proof.
  intros [T1 X1 Z1] [T2 X2 Z2]. constructor.
  - congruence.
  - intros Ht Hn. rewrite <- (X1 Ht Hn). apply X2; [congruence|].
    rewrite (X1 Ht Hn). exact Hn.
  - intros Ht Hn. destruct (Z1 Ht Hn) as [E1 E1'].
    destruct Z2 as [E2 E2']; [congruence | rewrite E1; exact Hn |].
    split; congruence.
Qed.

(** A change of fields other than the tag and the templates. *)
Ltac keeps_by_fields :=
  constructor; simpl_state; intros; repeat split; congruence.

(** The templates after a run of a slot that is known to return. *)
Ltac finish_keeps :=
  constructor; simpl_state; intros;
  repeat match goal with
    | E : (_ =? _)%string = true |- _ => apply String.eqb_eq in E
    | H : nonzero_max ?l, E : Np.max ?l = Some _ |- _ =>
        destruct H as (? & H & ?); rewrite E in H; injection H as <-
    end;
  repeat split; congruence.

Ltac finish_stop :=
  unfold keeps_stop_request; simpl_state; intros; congruence.

Lemma refocus_xy_line_keeps_templates (dev : ConfocalScanner) (s s' : State) :
  _refocus_xy_line dev s = Some (tt, s') -> keeps_templates s s'.
Proof.
  intros H.
  unfold _refocus_xy_line, stop_refocus, device_scan_line in H.
  unfold_monad. simpl_state.
  run_in H; inversion H; subst; clear H; use_frames; simpl_state; finish_keeps.
Qed.

Lemma scan_z_line_keeps (dev : ConfocalScanner) (s s' : State) :
  _scan_z_line dev s = Some (tt, s') ->
  keeps_templates s s' /\ keeps_stop_request s s'.
Proof.
  intros H.
  unfold _scan_z_line, stop_refocus, device_scan_line in H.
  unfold_monad. simpl_state.
  run_in H; inversion H; subst; clear H; use_frames; simpl_state;
    (split; [finish_keeps | finish_stop]).
Qed.

Lemma set_optimized_xy_keeps (fit : FitLogic) (sp : Scipy) (s s' : State) :
  _set_optimized_xy_from_fit fit sp s = Some (tt, s') ->
  keeps_templates s s' /\ keeps_stop_request s s'.
Proof.
  intros H. unfold _set_optimized_xy_from_fit, xy_accept in H.
  unfold_monad. simpl_state.
  run_in H; inversion H; subst; clear H;
    repeat match goal with
      | E : xy_estimate _ _ _ = Some _ |- _ =>
          apply xy_estimate_frame in E; destruct E as [? ->]
      end;
    (split; [finish_keeps | finish_stop]).
Qed.

Lemma do_z_optimization_keeps
      (dev : ConfocalScanner) (fit : FitLogic) (sp : Scipy) (s s' : State) :
  do_z_optimization dev fit sp s = Some (tt, s') ->
  keeps_templates s s' /\ keeps_stop_request s s'.
Proof.
  intros H. unfold do_z_optimization in H.
  apply bind_inv in H. destruct H as ([] & s1 & Hscan & H).
  destruct (scan_z_line_keeps _ _ _ Hscan) as [K1 S1]. clear Hscan.
  assert (K2 : keeps_templates s1 s' /\ keeps_stop_request s1 s').
  { unfold z_accept in H. unfold_monad. simpl_state.
    run_in H; inversion H; subst; clear H;
      repeat match goal with
        | E : z_estimate _ _ _ = Some _ |- _ =>
            apply z_estimate_frame in E; destruct E as [? ->]
        end;
      (split; [finish_keeps | finish_stop]). }
  destruct K2 as [K2 S2]. split.
  - exact (keeps_templates_trans _ _ _ K1 K2).
  - intros Hs. apply S2, S1, Hs.
Qed.

Lemma initialize_xy_keeps (dev : ConfocalScanner) (s s' : State) :
  _initialize_xy_refocus_image dev s = Some (tt, s') ->
  keeps_templates s s' /\ stopRequested s' = stopRequested s /\
  _xy_scan_line_count s' = 0%nat.
Proof.
  intros H. unfold _initialize_xy_refocus_image in H. unfold_monad. simpl_state.
  run_in H; inversion H; subst; clear H;
    (split; [finish_keeps | simpl_state; split; reflexivity]).
Qed.

Lemma initialize_z_keeps (dev : ConfocalScanner) (s s' : State) :
  _initialize_z_refocus_image dev s = Some (tt, s') ->
  keeps_templates s s' /\ stopRequested s' = stopRequested s.
Proof.
  intros H. unfold _initialize_z_refocus_image in H. unfold_monad. simpl_state.
  run_in H; inversion H; subst; clear H;
    (split; [finish_keeps | simpl_state; reflexivity]).
Qed.

Lemma finish_refocus_keeps (dev : ConfocalScanner) (s s' : State) :
  finish_refocus dev s = Some (tt, s') ->
  keeps_templates s s' /\ stopRequested s' = stopRequested s.
Proof.
  intros H. use_frames. split; [|assumption].
  constructor; intros; repeat split; congruence.
Qed.

Ltac step_in H :=
  let a := fresh "a" in
  let s1 := fresh "s" in
  let E := fresh "E" in
  apply bind_inv in H; destruct H as (a & s1 & E & H); cbv beta in H.

(** The ways in which [_do_next_optimization_step] returns: it finished the
    run, it launched a step, or the step it found is not a known one. *)
Lemma do_next_step_cases (dev : ConfocalScanner) (s s' : State) :
  _do_next_optimization_step dev s = Some (tt, s') ->
  finish_refocus dev s = Some (tt, s') \/
  (exists s1 sig,
      (_initialize_xy_refocus_image dev
         (set_optimization_step (S (_optimization_step s)) s) = Some (tt, s1) \/
       _initialize_z_refocus_image dev
         (set_optimization_step (S (_optimization_step s)) s) = Some (tt, s1)) /\
      s' = set_queue (queue s1 ++ [sig]) s1) \/
  s' = set_optimization_step (S (_optimization_step s)) s.
Proof.
  intros H. unfold _do_next_optimization_step in H.
  step_in H. unfold get in E. injection E as <- <-.
  step_in H. unfold get in E. injection E as <- <-.
  destruct (_caller_tag s =? "xy_template_image")%string.
  { destruct (1 <=? _optimization_step s)%nat; [left; exact H|].
    step_in H. unfold put in E. injection E as <- <-.
    step_in H. unfold emit, put in H. injection H as <-.
    repeat match goal with u : unit |- _ => destruct u end.
    right. left. eexists _, _. split; [left; exact E | reflexivity]. }
  destruct (_caller_tag s =? "z_template_image")%string.
  { destruct (1 <=? _optimization_step s)%nat; [left; exact H|].
    step_in H. unfold put in E. injection E as <- <-.
    step_in H. unfold emit, put in H. injection H as <-.
    repeat match goal with u : unit |- _ => destruct u end.
    right. left. eexists _, _. split; [right; exact E | reflexivity]. }
  step_in H. unfold get in E. injection E as <- <-.
  destruct (_optimization_step s =? length (optimization_sequence s))%nat;
    [left; exact H|].
  step_in H. unfold try_ in E.
  destruct (nth_error (optimization_sequence s) (_optimization_step s)) as [this|];
    [|discriminate E].
  injection E as <- <-.
  step_in H. unfold put in E. injection E as <- <-.
  destruct (this =? "XY")%string.
  { step_in H. unfold emit, put in H. injection H as <-.
    repeat match goal with u : unit |- _ => destruct u end.
    right. left. eexists _, _. split; [left; exact E | reflexivity]. }
  destruct (this =? "Z")%string.
  { step_in H. unfold emit, put in H. injection H as <-.
    repeat match goal with u : unit |- _ => destruct u end.
    right. left. eexists _, _. split; [right; exact E | reflexivity]. }
  unfold ret in H. injection H as <-. right. right. reflexivity.
Qed.

Lemma do_next_step_keeps (dev : ConfocalScanner) (s s' : State) :
  _do_next_optimization_step dev s = Some (tt, s') ->
  keeps_templates s s' /\ keeps_stop_request s s'.
Proof.
  intros H.
  destruct (do_next_step_cases _ _ _ H) as [F | [(s1 & sig & I & ->) | ->]].
  - destruct (finish_refocus_keeps _ _ _ F) as [K St]. split; [exact K|].
    intros Hs. congruence.
  - assert (K : keeps_templates (set_optimization_step (S (_optimization_step s)) s) s1
                /\ stopRequested s1 = stopRequested s).
    { destruct I as [I | I].
      - destruct (initialize_xy_keeps _ _ _ I) as (K & St & _). split; [exact K|].
        rewrite St. reflexivity.
      - destruct (initialize_z_keeps _ _ _ I) as (K & St). split; [exact K|].
        rewrite St. reflexivity. }
    destruct K as [K St]. split.
    + apply (keeps_templates_trans _ (set_optimization_step (S (_optimization_step s)) s));
        [keeps_by_fields|].
      apply (keeps_templates_trans _ s1); [exact K | keeps_by_fields].
    + intros Hs. simpl_state. congruence.
  - split; [keeps_by_fields | finish_stop].
Qed.

Lemma slot_keeps_templates (dev : ConfocalScanner) (fit : FitLogic) (sp : Scipy)
      (sig : Signal) (s s' : State) :
  slot dev fit sp sig s = Some (tt, s') -> keeps_templates s s'.
Proof.
  destruct sig; cbn [slot]; intros H.
  - exact (refocus_xy_line_keeps_templates _ _ _ H).
  - exact (proj1 (do_z_optimization_keeps _ _ _ _ _ H)).
  - exact (proj1 (set_optimized_xy_keeps _ _ _ _ H)).
  - exact (proj1 (do_next_step_keeps _ _ _ H)).
Qed.

Lemma event_loop_keeps_templates (dev : ConfocalScanner) (fit : FitLogic) (sp : Scipy)
      (fuel : nat) :
  forall s s', last_state (event_loop dev fit sp fuel s) = Some s' ->
               keeps_templates s s'.
Proof.
  induction fuel as [|fuel IH]; intros s s'; cbn [event_loop].
  - destruct (queue s); cbn [last_state]; intros H; injection H as <-;
      apply keeps_templates_refl.
  - destruct (queue s) as [|sig rest] eqn:Eq.
    + cbn [last_state]. intros H; injection H as <-. apply keeps_templates_refl.
    + destruct (slot dev fit sp sig (set_queue rest s)) as [[[] s1]|] eqn:Es;
        [|discriminate].
      intros H. apply (keeps_templates_trans _ (set_queue rest s)).
      * constructor; simpl_state; intros; repeat split; reflexivity.
      * apply (keeps_templates_trans _ s1); [|apply IH; exact H].
        apply (slot_keeps_templates _ _ _ _ _ _ Es).
Qed.

Ltac block_in E :=
  unfold_monad; simpl_state; run_in E; injection E as <- <-; reflexivity.

Ltac put_step H :=
  step_in H;
  match goal with
  | E : put _ ?t = Some (_, ?t') |- _ =>
      assert (stored t' = stored t)
        by (unfold put in E; injection E as ? <-; reflexivity);
      clear E
  end.

(** [start_refocus] sets the tag of the run and leaves the templates. *)
Lemma start_refocus_templates (dev : ConfocalScanner) (ip : option (list Q))
      (ctag tag : string) (s s' : State) :
  start_refocus dev ip ctag tag s = Some (tt, s') ->
  _caller_tag s' = ctag /\
  xy_template_image s' = xy_template_image s /\
  z_template_data s' = z_template_data s /\
  zimage_template_Z_values s' = zimage_template_Z_values s.
Proof.
  intros H. unfold start_refocus in H.
  step_in H.
  assert (K1 : stored s0 = stored s).
  { clear H.
    destruct ip as [[|x [|y [|z r]]]|];
      [| | | |unfold bind, get in E;
              destruct (firstn 3 (get_scanner_position dev (length (scan_log s))))
                as [|x [|y [|z [|w r]]]]; try discriminate E];
      block_in E. }
  clear E.
  step_in H. unfold get in E. injection E as <- <-.
  step_in H. unfold get in E. injection E as <- <-.
  step_in H.
  assert (K2 : stored s1 = stored s0) by (clear H; block_in E).
  clear E.
  step_in H.
  assert (K3 : stored s2 = stored s1) by (clear H; block_in E).
  clear E.
  step_in H.
  assert (K4 : stored s3 =
               (ctag, xy_template_image s2, z_template_data s2,
                zimage_template_Z_values s2))
    by (unfold put in E; injection E as ? <-; reflexivity).
  clear E.
  do 8 put_step H.
  step_in H.
  match goal with
  | E : check_optimization_sequence ?t = Some (_, ?t') |- _ =>
      assert (stored t' = stored t)
        by (clear H; unfold check_optimization_sequence in E; block_in E);
      clear E
  end.
  step_in H.
  match goal with
  | E : start_scanner _ ?t = Some (_, ?t') |- _ =>
      assert (stored t' = stored t)
        by (clear H; unfold start_scanner in E; block_in E);
      clear E
  end.
  match type of H with
  | _ ?t = _ =>
      assert (stored s' = stored t)
        by (unfold_monad; simpl_state; run_in H; injection H as <-; reflexivity)
  end.
  clear H. unfold stored in *.
  repeat match goal with
    | K : (_, _) = (_, _) |- _ => injection K as ? ? ? ?
    end.
  repeat split; congruence.
Qed.

(** X8.  A run that is not started to capture a template leaves a stored
    template whose maximum is not zero as it was, whatever the scanner and
    the fits answer and wherever the run stops: the XY template when the
    caller tag is not the one of the XY capture, the Z template and its
    axis when it is not the one of the Z capture. *)
Theorem refocus_keeps_stored_templates (dev : ConfocalScanner) (fit : FitLogic)
        (sp : Scipy) (fuel : nat) (ip : option (list Q)) (ctag tag : string)
        (s s' : State) :
  last_state (refocus dev fit sp fuel ip ctag tag s) = Some s' ->
  (ctag <> "xy_template_image" ->
   nonzero_max (concat (concat (xy_template_image s))) ->
   xy_template_image s' = xy_template_image s) /\
  (ctag <> "z_template_image" ->
   nonzero_max (concat (z_template_data s)) ->
   z_template_data s' = z_template_data s /\
   zimage_template_Z_values s' = zimage_template_Z_values s).
Proof.
  unfold refocus.
  destruct (start_refocus dev ip ctag tag s) as [[[] s1]|] eqn:Es;
    [|discriminate].
  intros H.
  apply start_refocus_templates in Es.
  destruct Es as (Etag & Exy & Ez & Ezv).
  apply event_loop_keeps_templates in H.
  destruct H as [_ Kxy Kz].
  rewrite Etag, Exy in Kxy. rewrite Etag, Ez, Ezv in Kz.
  split; assumption.
Qed.

Lemma refocus_keeps_stored_templates_witness :
  exists s',
    refocus steady_scanner (example_fit true 0 0 0) example_scipy 20 None
      "user" "logic" templated_state = Idle s' /\
    xy_template_image s' = [[[0; 0; 0; 5]]] /\
    z_template_data s' = [[5]].
Proof.
  assert (E : exists s',
             refocus steady_scanner (example_fit true 0 0 0) example_scipy 20 None
               "user" "logic" templated_state = Idle s')
    by (vm_compute; eexists; reflexivity).
  destruct E as [s' E]. exists s'. split; [exact E|].
  destruct (refocus_keeps_stored_templates
              steady_scanner (example_fit true 0 0 0) example_scipy 20 None
              "user" "logic" templated_state s') as [Hxy Hz].
  - rewrite E. reflexivity.
  - split.
    + apply Hxy; [discriminate|]. exists 5. split; reflexivity.
    + apply Hz; [discriminate|]. exists 5. split; reflexivity.
Defined.

(** X9.  Only the slot of an XY line takes a stop request: the Z step, the
    XY fit and the change of step leave a pending request pending. *)
Theorem stop_request_outlives_other_slots
        (dev : ConfocalScanner) (fit : FitLogic) (sp : Scipy)
        (sig : Signal) (s s' : State) :
  sig <> _sigScanNextXyLine ->
  slot dev fit sp sig s = Some (tt, s') ->
  stopRequested s = true ->
  stopRequested s' = true.
Proof.
  intros Hsig H. destruct sig; cbn [slot] in H.
  - congruence.
  - exact (proj2 (do_z_optimization_keeps _ _ _ _ _ H)).
  - exact (proj2 (set_optimized_xy_keeps _ _ _ _ H)).
  - exact (proj2 (do_next_step_keeps _ _ _ H)).
Qed.

Lemma stop_request_outlives_other_slots_witness :
  stopRequested
    (state_after
       (slot steady_scanner (example_fit true 1 1 1) example_scipy _sigScanZLine)
       (set_stopRequested true refined_z_state)) = true.
Proof.
  apply (stop_request_outlives_other_slots
           steady_scanner (example_fit true 1 1 1) example_scipy _sigScanZLine
           (set_stopRequested true refined_z_state)).
  - discriminate.
  - vm_compute. reflexivity.
  - reflexivity.
Defined.

(** ** Edge cases *)

Lemma refocus_xy_line_empty_image (dev : ConfocalScanner) (s : State) :
  stopRequested s = false ->
  xy_refocus_image s = [] ->
  _refocus_xy_line dev s = None.
Proof.
  intros Hs Hi. unfold _refocus_xy_line. unfold_monad.
  rewrite Hs, Hi.
  destruct (_xy_scan_line_count s) as [|k]; reflexivity.
Qed.

(** X10.  With an XY resolution of zero the XY step allocates an empty image,
    and the slot of its first line raises when it reads the first cell,
    instead of ending the step. *)
Theorem zero_resolution_xy_line_raises (dev : ConfocalScanner) (s s1 : State) :
  optimizer_XY_res (cfg s) = 0%nat ->
  stopRequested s = false ->
  _initialize_xy_refocus_image dev s = Some (tt, s1) ->
  xy_refocus_image s1 = [] /\
  forall q, _refocus_xy_line dev (set_queue q s1) = None.
Proof.
  intros Hres Hstop Hinit.
  assert (Himg : xy_refocus_image s1 = []).
  { destruct (initialize_xy_axes dev s s1 Hinit) as (_ & EY & _ & Eimg).
    rewrite Eimg, EY, Hres. reflexivity. }
  destruct (initialize_xy_keeps dev s s1 Hinit) as (_ & Hs & _).
  split; [exact Himg|].
  intros q. apply refocus_xy_line_empty_image; simpl_state; congruence.
Qed.

Lemma zero_resolution_xy_line_raises_witness :
  _refocus_xy_line steady_scanner
    (state_after (_initialize_xy_refocus_image steady_scanner)
       (example_state (example_settings 0 2 false) ["XY"])) = None.
Proof.
  destruct (zero_resolution_xy_line_raises steady_scanner
              (example_state (example_settings 0 2 false) ["XY"])
              (state_after (_initialize_xy_refocus_image steady_scanner)
                 (example_state (example_settings 0 2 false) ["XY"])))
    as [_ H].
  - reflexivity.
  - reflexivity.
  - vm_compute. reflexivity.
  - vm_compute. reflexivity.
Defined.

(** X11.  With a Z resolution of zero the Z step raises when it reads the
    first scan position, before any scan. *)
Theorem zero_resolution_z_step_raises (dev : ConfocalScanner) (fit : FitLogic)
        (sp : Scipy) (s s1 : State) :
  optimizer_Z_res (cfg s) = 0%nat ->
  _initialize_z_refocus_image dev s = Some (tt, s1) ->
  _zimage_Z_values s1 = [] /\
  forall q, do_z_optimization dev fit sp (set_queue q s1) = None.
Proof.
  intros Hres Hinit.
  pose proof (initialize_z_axis dev s s1 Hinit) as EZ. cbv zeta in EZ.
  rewrite Hres in EZ. change (Np.linspace _ _ 0) with (@nil Q) in EZ.
  split; [exact EZ|]. intros q.
  unfold do_z_optimization, _scan_z_line. unfold_monad. simpl_state.
  rewrite EZ. reflexivity.
Qed.

Lemma zero_resolution_z_step_raises_witness :
  do_z_optimization steady_scanner (example_fit true 1 1 1) example_scipy
    (state_after (_initialize_z_refocus_image steady_scanner)
       (example_state (example_settings 2 0 false) ["Z"])) = None.
Proof.
  destruct (zero_resolution_z_step_raises steady_scanner
              (example_fit true 1 1 1) example_scipy
              (example_state (example_settings 2 0 false) ["Z"])
              (state_after (_initialize_z_refocus_image steady_scanner)
                 (example_state (example_settings 2 0 false) ["Z"])))
    as [_ H].
  - reflexivity.
  - vm_compute. reflexivity.
  - vm_compute. reflexivity.
Defined.


